(** * A client of the Nest REST and streaming API: model and properties

    Shallow embedding of [structure.go] and of the thermostat setters
    (the second source file): request construction, the PUT with its one
    retry on a 307, the structures fetch and the event-stream reader.

    What the Go code does through the network, the clock and
    [encoding/json] is delegated to an environment: a [Runtime] (the HTTP
    round trip and [time.Now]) and a [JSONCodec] (what [json.Unmarshal]
    stores).  Every operation is a function on an explicit program state
    that records the clients on the heap, the requests sent and the
    callback invocations, and that can end in a Go panic.  The lines that
    the code prints with [fmt.Println] are left out. *)

From Stdlib Require Import ZArith Bool List.
From Stdlib Require Import Floats.SpecFloat.
From stdpp Require Import base option list strings gmap fin_maps.

Local Open Scope Z_scope.
Local Open Scope string_scope.
Local Open Scope list_scope.

(** ** float32 *)

(** Go's [float32]: the binary32 values, in canonical form. *)
Record float32 := mkFloat32 {
  f32_val : spec_float;
  f32_valid : valid_binary 24 128 f32_val = true
}.

(** [a < b] and [a <= b] on float32, false as soon as a NaN is involved. *)
Definition f32_lt (a b : float32) : bool := SFltb (f32_val a) (f32_val b).
Definition f32_le (a b : float32) : bool := SFleb (f32_val a) (f32_val b).

(** Neither NaN nor an infinity. *)
Definition f32_finite (a : float32) : bool :=
  match f32_val a with
  | S754_zero _ | S754_finite _ _ _ => true
  | S754_infinity _ | S754_nan => false
  end.

(** The untyped constants 9 and 32 of [SetTargetTempC], converted to
    float32: 9 = 9437184 * 2^-20 and 32 = 8388608 * 2^-18. *)
Definition f32_9 : float32 := mkFloat32 (S754_finite false 9437184 (-20)) eq_refl.
Definition f32_32 : float32 := mkFloat32 (S754_finite false 8388608 (-18)) eq_refl.

(** A few more values, for the examples: 20, 21.5 and +Inf. *)
Definition f32_20 : float32 := mkFloat32 (S754_finite false 10485760 (-19)) eq_refl.
Definition f32_21_5 : float32 := mkFloat32 (S754_finite false 11272192 (-19)) eq_refl.
Definition f32_pinf : float32 := mkFloat32 (S754_infinity false) eq_refl.

(** ** Data model *)

(** A [time.Time] instant, in nanoseconds. [Before] is the strict order. *)
Definition Time := Z.
Definition Before (t u : Time) : bool := Z.ltb t u.

(** Addresses of the [Client] values on the heap. A [*Client] is
    [option loc], with [None] for nil. *)
Definition loc := positive.

Record Client := mkClient {
  APIURL : string;
  RedirectURL : string;
  Token : string
}.

Record APIError := mkAPIError {
  Error : string;
  Description : string;
  Status : string;
  StatusCode : Z
}.

(** [&APIError{}] *)
Definition zero_APIError : APIError := mkAPIError "" "" "" 0.

(** Of the fields of a thermostat and of a structure, the code of the
    two files reads the ID and the client and nothing else; [Away] stands
    for the fields that mirror the remote resource. *)
Record Thermostat := mkThermostat {
  DeviceID : string;
  Thermostat_Client : option loc
}.

Record Structure := mkStructure {
  StructureID : string;
  Structure_Away : string;
  Structure_Client : option loc
}.

(** [map[string]*Structure]: an entry can be a nil pointer (a JSON
    [null]). The structures behind the pointers are allocated by the
    decoder and referenced from the map only, so they are kept by value. *)
Abbreviation Structures_map := (gmap string (option Structure)).

(** [Data] is a Go map, nil ([None]) until a decoder stores one. *)
Record StructuresEvent := mkStructuresEvent {
  Data : option Structures_map
}.

Record ETA := mkETA {
  TripID : string;
  EstimatedArrivalWindowBegin : Time;
  EstimatedArrivalWindowEnd : Time
}.

(** ** JSON request bodies *)

Inductive JVal :=
| JBool (b : bool)
| JString (s : string)
| JInt (n : Z)
| JFloat32 (f : float32)
| JTime (t : Time).

(** The bytes of a request body: the JSON text of an object, identified
    with the object, or no bytes at all (a nil slice). *)
Inductive Bytes :=
| NoBytes
| JSONText (o : gmap string JVal).

(** ** HTTP *)

Record URL := mkURL {
  Scheme : string;
  Host : string
}.

Record Request := mkRequest {
  req_Method : string;
  req_URL : string;
  req_Header : list (string * string);
  req_Body : Bytes
}.

(** A response body as its reader sees it: the newline-terminated
    segments that [bufio.Reader.ReadString] returns one after the other,
    the unterminated rest, and how the body ends: [None] for a clean EOF,
    [Some e] for a read failure. Bodies end: a stream that the server
    never closes keeps its reader in the watch loop and has no value
    here. *)
Record Body := mkBody {
  body_lines : list string;
  body_rest : string;
  body_err : option string
}.

(** [resp.Request.URL] is [resp_Request_URL]. *)
Record Response := mkResponse {
  resp_Status : string;
  resp_StatusCode : Z;
  resp_Request_URL : option URL;
  resp_Body : Body
}.

(** What [client.Do] returns: [(resp, err)], either of which can be nil. *)
Definition DoResult : Type := option Response * option string.

(** [ioutil.ReadAll]: the bytes read and the error, nil at a clean EOF. *)
Definition ReadAll (b : Body) : string * option string :=
  (String.concat "" (body_lines b) +:+ body_rest b, body_err b).

(** [req.Header.Set], on a request that is not nil. *)
Definition Header_Set (req : Request) (key value : string) : Request :=
  mkRequest (req_Method req) (req_URL req)
            (req_Header req ++ [(key, value)]) (req_Body req).

(** ** The environment *)

(** The network, the clock and the URL parser: [RoundTrip] is
    [http.Client.Do] on a request that is not nil (redirects followed as
    the client does), [Now] is [time.Now], and [url_parses] tells whether
    [net/url] accepts a URL, which is when [http.NewRequest] returns a
    request. *)
Class Runtime (W : Type) := {
  RoundTrip : W → Request → W * DoResult;
  Now : W → W * Time;
  url_parses : string → bool
}.

(** What [json.Unmarshal] did to its target: nothing when the text is not
    JSON (the syntax is checked before anything is stored), and otherwise
    it stored [a], with the first type mismatch as the error. *)
Inductive Unmarshaled (A : Type) :=
| SyntaxError (msg : string)
| Stored (a : A) (err : option string).
Arguments SyntaxError {A} msg.
Arguments Stored {A} a err.

(** The target after the call, starting from [zero]. *)
Definition target_after {A} (zero : A) (r : Unmarshaled A) : A :=
  match r with
  | SyntaxError _ => zero
  | Stored a _ => a
  end.

(** The error [json.Unmarshal] returns. *)
Definition unmarshal_err {A} (r : Unmarshaled A) : option string :=
  match r with
  | SyntaxError msg => Some msg
  | Stored _ err => err
  end.

(** [encoding/json] on the types of this package. [time_marshals t] tells
    whether [t] has a JSON form (its year is within 0..9999). *)
Class JSONCodec := {
  json_APIError : string → Unmarshaled APIError;
  json_Thermostat : string → Unmarshaled Thermostat;
  json_Structure : string → Unmarshaled Structure;
  json_Structures : string → Unmarshaled Structures_map;
  json_StructuresEvent : string → Unmarshaled StructuresEvent;
  time_marshals : Time → bool
}.

(** The declarations of the package that the two source files use and do
    not contain: the mode codes, distinct since they are the cases of one
    [switch], the actions of [getStructures], and [parseStreamData], which
    returns the payload of a data line and the empty string otherwise. *)
Class Declarations := {
  Cool : Z;
  Heat : Z;
  HeatCool : Z;
  Off : Z;
  hvac_modes_distinct : NoDup [Cool; Heat; HeatCool; Off];
  Home : Z;
  Away : Z;
  AutoAway : Z;
  away_modes_distinct : NoDup [Home; Away; AutoAway];
  Stream : Z;
  NoStream : Z;
  parseStreamData : string → string
}.

(** ** Program state and the monad of the operations *)

(** What the callback of the stream receives: [(structures, err)]. *)
Definition CallbackArgs : Type := option Structures_map * option string.

(** The clients on the heap, the environment, the requests handed to
    [RoundTrip] so far and the invocations of the callback so far, both
    oldest first. *)
Record State (W : Type) := mkState {
  clients : gmap loc Client;
  world : W;
  sent : list Request;
  delivered : list CallbackArgs
}.
Arguments mkState {W} _ _ _ _.
Arguments clients {W} _.
Arguments world {W} _.
Arguments sent {W} _.
Arguments delivered {W} _.

(** An operation returns a value or panics; both leave a state. *)
Inductive Outcome (W A : Type) :=
| Ret (a : A) (s : State W)
| Panic (s : State W).
Arguments Ret {W A} a s.
Arguments Panic {W A} s.

Definition M (W A : Type) : Type := State W → Outcome W A.

Definition final {W A} (o : Outcome W A) : State W :=
  match o with
  | Ret _ s => s
  | Panic s => s
  end.

Definition ret {W A} (a : A) : M W A := fun s => Ret a s.

Definition bind {W A B} (m : M W A) (k : A → M W B) : M W B :=
  fun s =>
    match m s with
    | Ret a s' => k a s'
    | Panic s' => Panic s'
    end.

Definition panic {W A} : M W A := fun s => Panic s.

Section Operations.

Context {W : Type} {RT : Runtime W} {JC : JSONCodec} {D : Declarations}.

Notation "x <- m ;; k" := (bind m (fun x => k))
  (at level 100, m at next level, right associativity).
Notation "m ;;; k" := (bind m (fun _ => k))
  (at level 100, right associativity).

(** Dereferencing a pointer: nil panics. *)
Definition nonnil {A} (p : option A) : M W A :=
  match p with
  | Some a => ret a
  | None => panic
  end.

(** Reading the client behind a [*Client]. *)
Definition deref (p : option loc) : M W Client :=
  fun s =>
    match p with
    | Some l =>
        match clients s !! l with
        | Some c => Ret c s
        | None => Panic s
        end
    | None => Panic s
    end.

(** [p.RedirectURL = url] *)
Definition set_RedirectURL (p : option loc) (url : string) : M W unit :=
  c <- deref p ;;
  l <- nonnil p ;;
  fun s =>
    Ret tt (mkState (<[l := mkClient (APIURL c) url (Token c)]> (clients s))
                    (world s) (sent s) (delivered s)).

(** [req, _ := http.NewRequest(method, url, body)]: the error is dropped
    by every caller, which is left with a nil request when the URL does
    not parse. The first use of a nil request panics, be it
    [req.Header.Set] or [Do], and nothing happens between the two: the
    operations below dereference the request, with [nonnil], as soon as
    it is made. *)
Definition NewRequest (method url : string) (body : Bytes) : option Request :=
  if url_parses url then Some (mkRequest method url [] body) else None.

(** [client.Do(req)], on a request that is not nil. *)
Definition Do (req : Request) : M W DoResult :=
  fun s =>
    let (w, r) := RoundTrip (world s) req in
    Ret r (mkState (clients s) w (sent s ++ [req]) (delivered s)).

(** [time.Now()] *)
Definition time_Now : M W Time :=
  fun s =>
    let (w, t) := Now (world s) in
    Ret t (mkState (clients s) w (sent s) (delivered s)).

(** [callback(structures, err)]: the callback of the caller is taken to
    return, and what it is given is recorded. *)
Definition callback (structures : option Structures_map) (err : option string)
  : M W unit :=
  fun s =>
    Ret tt (mkState (clients s) (world s) (sent s)
                    (delivered s ++ [(structures, err)])).

(** [json.Marshal] of a map or of a struct with these fields: NaN, the
    infinities and times without a JSON form are errors, and the caller,
    which drops the error, is left with a nil slice. *)
Definition json_supported (v : JVal) : bool :=
  match v with
  | JFloat32 f => f32_finite f
  | JTime t => time_marshals t
  | JBool _ | JString _ | JInt _ => true
  end.

Definition Marshal (o : gmap string JVal) : Bytes :=
  if decide (map_Forall (fun _ v => json_supported v = true) o)
  then JSONText o
  else NoBytes.

(** ** The thermostat setters and the PUT of a thermostat *)

Definition generateAPIError (description : string) : APIError :=
  mkAPIError "api_error" description "" 0.

Definition http_error (err : string) : APIError :=
  mkAPIError "http_error" err "" 0.

(** The end of [setThermostat] and [setStructure], from
    [ioutil.ReadAll] on: nil on a 200, whatever the body, and otherwise
    an [api_error] that describes the kind the server sent and carries
    the status. The resource decoded from a 200 body is dropped. *)
Definition read_response {A} (decode : string → Unmarshaled A) (resp : Response)
  : option APIError :=
  let body := fst (ReadAll (resp_Body resp)) in
  if decide (resp_StatusCode resp = 200) then
    let _ := decode body in
    None
  else
    let apiError := target_after zero_APIError (json_APIError body) in
    let apiError := generateAPIError (Error apiError) in
    Some (mkAPIError (Error apiError) (Description apiError)
                     (resp_Status resp) (resp_StatusCode resp)).

Definition setThermostat (t : Thermostat) (body : Bytes) : M W (option APIError) :=
  c <- deref (Thermostat_Client t) ;;
  let url := RedirectURL c +:+ "/devices/thermostats/" +:+ DeviceID t
             +:+ "?auth=" +:+ Token c in
  req <- nonnil (NewRequest "PUT" url body) ;;
  let req := Header_Set req "Content-Type" "application/json" in
  r <- Do req ;;
  match snd r with
  | Some err => ret (Some (http_error err))
  | None =>
      resp <- nonnil (fst r) ;;
      if decide (resp_StatusCode resp = 307) then
        u <- nonnil (resp_Request_URL resp) ;;
        set_RedirectURL (Thermostat_Client t) (Scheme u +:+ "://" +:+ Host u) ;;;
        c <- deref (Thermostat_Client t) ;;
        let url := RedirectURL c +:+ "/devices/thermostats/" +:+ DeviceID t
                   +:+ "?auth=" +:+ Token c in
        req <- nonnil (NewRequest "PUT" url body) ;;
        let req := Header_Set req "Content-Type" "application/json" in
        r <- Do req ;;
        match snd r with
        | Some err => ret (Some (http_error err))
        | None =>
            response <- nonnil (fst r) ;;
            ret (read_response json_Thermostat response)
        end
      else
        ret (read_response json_Thermostat resp)
  end.

Definition SetFanTimerActive (t : Thermostat) (setting : bool)
  : M W (option APIError) :=
  let request : gmap string JVal := <["fan_timer_active" := JBool setting]> ∅ in
  setThermostat t (Marshal request).

Definition SetHvacMode (t : Thermostat) (mode : Z) : M W (option APIError) :=
  let requestMode : gmap string JVal := ∅ in
  if decide (mode = Cool) then
    setThermostat t (Marshal (<["hvac_mode" := JString "cool"]> requestMode))
  else if decide (mode = Heat) then
    setThermostat t (Marshal (<["hvac_mode" := JString "heat"]> requestMode))
  else if decide (mode = HeatCool) then
    setThermostat t (Marshal (<["hvac_mode" := JString "heat-cool"]> requestMode))
  else if decide (mode = Off) then
    setThermostat t (Marshal (<["hvac_mode" := JString "off"]> requestMode))
  else
    ret (Some (generateAPIError
      "Invalid HvacMode requested - must be cool, heat, heat-cool or off")).

Definition SetTargetTempC (t : Thermostat) (temp : float32) : M W (option APIError) :=
  if f32_lt temp f32_9 || f32_lt f32_32 temp then
    ret (Some (generateAPIError "Temperature must be between 9 and 32 Celcius"))
  else
    let tempRequest : gmap string JVal :=
      <["target_temperature_c" := JFloat32 temp]> ∅ in
    setThermostat t (Marshal tempRequest).

(** Go's [int] is [Z] here: the code compares it and does no arithmetic. *)
Definition SetTargetTempF (t : Thermostat) (temp : Z) : M W (option APIError) :=
  if (temp <? 50)%Z || (90 <? temp)%Z then
    ret (Some (generateAPIError "Temperature must be between 50 and 90 Farenheit"))
  else
    let request : gmap string JVal := <["target_temperature_f" := JInt temp]> ∅ in
    setThermostat t (Marshal request).

Definition SetTargetTempHighLowC (t : Thermostat) (high low : float32)
  : M W (option APIError) :=
  if f32_lt high low then
    ret (Some (generateAPIError
      "The high temperature must be greater than the low temperature"))
  else
    let request : gmap string JVal :=
      <["target_temperature_low_c" := JFloat32 low]>
        (<["target_temperature_high_c" := JFloat32 high]> ∅) in
    setThermostat t (Marshal request).

Definition SetTargetTempHighLowF (t : Thermostat) (high low : Z)
  : M W (option APIError) :=
  if (high <? low)%Z then
    ret (Some (generateAPIError
      "The high temperature must be greater than the low temperature"))
  else
    let request : gmap string JVal :=
      <["target_temperature_low_f" := JInt low]>
        (<["target_temperature_high_f" := JInt high]> ∅) in
    setThermostat t (Marshal request).

(** ** Structures: fetch, stream, away mode and ETA *)

(** [for _, value := range structures { value.Client = c }]: writing
    through a nil entry panics. *)
Definition associate (c : loc) (value : option Structure) : option Structure :=
  match value with
  | Some s => Some (mkStructure (StructureID s) (Structure_Away s) (Some c))
  | None => None
  end.

Definition associateClientToStructures (c : loc) (structures : Structures_map)
  : M W Structures_map :=
  if decide (map_Forall (fun _ value => is_Some value) structures)
  then ret (associate c <$> structures)
  else panic.

Definition getStructures (c : loc) (action : Z) : M W DoResult :=
  cl <- deref (Some c) ;;
  if decide (RedirectURL cl = "") then
    req <- nonnil (NewRequest "GET"
                     (APIURL cl +:+ "/structures.json?auth=" +:+ Token cl)
                     NoBytes) ;;
    r <- Do req ;;
    resp <- nonnil (fst r) ;;
    match resp_Request_URL resp with
    | Some u => set_RedirectURL (Some c) (Scheme u +:+ "://" +:+ Host u)
    | None => ret tt
    end ;;;
    ret r
  else
    req <- nonnil (NewRequest "GET"
                     (RedirectURL cl +:+ "/structures.json?auth=" +:+ Token cl)
                     NoBytes) ;;
    let req := if decide (action = Stream)
               then Header_Set req "Accept" "text/event-stream"
               else req in
    r <- Do req ;;
    ret r.

Definition Structures (c : loc) : M W (option Structures_map * option APIError) :=
  r <- getStructures c NoStream ;;
  match snd r with
  | Some err => ret (None, Some (mkAPIError "devices_error" err "" 0))
  | None =>
      resp <- nonnil (fst r) ;;
      let (body, err) := ReadAll (resp_Body resp) in
      match err with
      | Some err => ret (None, Some (mkAPIError "body_read_error" err "" 0))
      | None =>
          if decide (resp_StatusCode resp = 200) then
            let structures := target_after ∅ (json_Structures body) in
            structures <- associateClientToStructures c structures ;;
            ret (Some structures, None)
          else
            let apiError := target_after zero_APIError (json_APIError body) in
            ret (None, Some apiError)
      end
  end.

(** The loop of [watchStructuresStream] over the lines still to come:
    it returns when [ReadString] fails, at the end of the body. *)
Fixpoint watch_lines (c : loc) (lines : list string) : M W unit :=
  match lines with
  | [] => ret tt
  | line :: lines =>
      let value := parseStreamData line in
      (if decide (value = "") then ret tt
       else
         let structuresEvent :=
           target_after (mkStructuresEvent None) (json_StructuresEvent value) in
         match Data structuresEvent with
         | Some data =>
             data <- associateClientToStructures c data ;;
             callback (Some data) None
         | None => ret tt
         end) ;;;
      watch_lines c lines
  end.

Definition watchStructuresStream (c : loc) (resp : Response) : M W unit :=
  watch_lines c (body_lines (resp_Body resp)).

Definition streamStructures (c : loc) : M W unit :=
  r <- getStructures c Stream ;;
  match snd r with
  | Some err => callback None (Some err)
  | None =>
      resp <- nonnil (fst r) ;;
      watchStructuresStream c resp
  end.

(** The first [n] rounds of [for { c.streamStructures(callback) }]. The
    loop has no exit of its own: after [n] rounds it is at its head again. *)
Fixpoint stream_loop (n : nat) (c : loc) : M W unit :=
  match n with
  | O => ret tt
  | S n => streamStructures c ;;; stream_loop n c
  end.

(** [StructuresStream], observed for [n] rounds of its loop.
    [setRedirectURL] is a method of the client that the two source files
    call and do not contain. *)
Definition StructuresStream (setRedirectURL : loc → M W unit) (n : nat) (c : loc)
  : M W unit :=
  setRedirectURL c ;;;
  stream_loop n c.

Definition setStructure (s : Structure) (body : Bytes) : M W (option APIError) :=
  c <- deref (Structure_Client s) ;;
  let url := RedirectURL c +:+ "/structures/" +:+ StructureID s
             +:+ "?auth=" +:+ Token c in
  req <- nonnil (NewRequest "PUT" url body) ;;
  let req := Header_Set req "Content-Type" "application/json" in
  r <- Do req ;;
  match snd r with
  | Some err => ret (Some (http_error err))
  | None =>
      resp <- nonnil (fst r) ;;
      if decide (resp_StatusCode resp = 307) then
        u <- nonnil (resp_Request_URL resp) ;;
        set_RedirectURL (Structure_Client s) (Scheme u +:+ "://" +:+ Host u) ;;;
        c <- deref (Structure_Client s) ;;
        let url := RedirectURL c +:+ "/structures/" +:+ StructureID s
                   +:+ "?auth=" +:+ Token c in
        req <- nonnil (NewRequest "PUT" url body) ;;
        let req := Header_Set req "Content-Type" "application/json" in
        r <- Do req ;;
        match snd r with
        | Some err => ret (Some (http_error err))
        | None =>
            response <- nonnil (fst r) ;;
            ret (read_response json_Structure response)
        end
      else
        ret (read_response json_Structure resp)
  end.

Definition SetAway (s : Structure) (mode : Z) : M W (option APIError) :=
  let requestMode : gmap string JVal := ∅ in
  if decide (mode = Home) then
    setStructure s (Marshal (<["away" := JString "home"]> requestMode))
  else if decide (mode = Away) then
    setStructure s (Marshal (<["away" := JString "away"]> requestMode))
  else if decide (mode = AutoAway) then
    setStructure s (Marshal (<["away" := JString "auto-away"]> requestMode))
  else
    ret (Some (generateAPIError
      "Invalid Away requested - must be home, away or auto-away")).

Definition checkTimes (begin end_ : Time) : M W (option APIError) :=
  now <- time_Now ;;
  if Before begin now then
    ret (Some (mkAPIError "eta_error"
      "The begin time must be greater than the time now" "" 0))
  else if Before end_ begin then
    ret (Some (mkAPIError "eta_error"
      "The end time must be greater than the begin time" "" 0))
  else
    ret None.

(** Modelled from the spec: the JSON names of the fields of [ETA], a
    struct whose declaration is not in the two source files; the body of
    the ETA request has the three fields [trip_id],
    [estimated_arrival_window_begin] and [estimated_arrival_window_end]. *)
Definition ETA_object (eta : ETA) : gmap string JVal :=
  <["estimated_arrival_window_end" := JTime (EstimatedArrivalWindowEnd eta)]>
    (<["estimated_arrival_window_begin" := JTime (EstimatedArrivalWindowBegin eta)]>
      (<["trip_id" := JString (TripID eta)]> ∅)).

Definition SetETA (s : Structure) (tripID : string) (begin end_ : Time)
  : M W (option APIError) :=
  apiErr <- checkTimes begin end_ ;;
  match apiErr with
  | Some apiErr => ret (Some apiErr)
  | None =>
      let eta := mkETA tripID begin end_ in
      let data := Marshal (ETA_object eta) in
      c <- deref (Structure_Client s) ;;
      req <- nonnil (NewRequest "PUT"
                       (RedirectURL c +:+ "/structures/" +:+ StructureID s
                        +:+ "/eta.json?auth=" +:+ Token c) data) ;;
      r <- Do req ;;
      match snd r with
      | Some err => ret (Some (http_error err))
      | None =>
          resp <- nonnil (fst r) ;;
          let body := fst (ReadAll (resp_Body resp)) in
          if decide (resp_StatusCode resp = 200) then ret None
          else
            let apiError := target_after zero_APIError (json_APIError body) in
            let apiError := generateAPIError (Error apiError) in
            ret (Some (mkAPIError (Error apiError) (Description apiError)
                                  (resp_Status resp) (resp_StatusCode resp)))
      end
  end.

(** ** Requests and callback traces, for the statements *)

(** The shape that [setThermostat] and [setStructure] share: the PUT
    of [body] to the URL that [path] builds from the client behind [p],
    reissued once against the new base after a 307. *)
Definition put_retry {A} (decode : string → Unmarshaled A) (p : option loc)
    (path : Client → string) (body : Bytes) : M W (option APIError) :=
  c <- deref p ;;
  req <- nonnil (NewRequest "PUT" (path c) body) ;;
  let req := Header_Set req "Content-Type" "application/json" in
  r <- Do req ;;
  match snd r with
  | Some err => ret (Some (http_error err))
  | None =>
      resp <- nonnil (fst r) ;;
      if decide (resp_StatusCode resp = 307) then
        u <- nonnil (resp_Request_URL resp) ;;
        set_RedirectURL p (Scheme u +:+ "://" +:+ Host u) ;;;
        c <- deref p ;;
        req <- nonnil (NewRequest "PUT" (path c) body) ;;
        let req := Header_Set req "Content-Type" "application/json" in
        r <- Do req ;;
        match snd r with
        | Some err => ret (Some (http_error err))
        | None =>
            response <- nonnil (fst r) ;;
            ret (read_response decode response)
        end
      else
        ret (read_response decode resp)
  end.

Definition thermostat_path (t : Thermostat) (c : Client) : string :=
  RedirectURL c +:+ "/devices/thermostats/" +:+ DeviceID t +:+ "?auth=" +:+ Token c.

Definition structure_path (s : Structure) (c : Client) : string :=
  RedirectURL c +:+ "/structures/" +:+ StructureID s +:+ "?auth=" +:+ Token c.

Definition eta_path (s : Structure) (c : Client) : string :=
  RedirectURL c +:+ "/structures/" +:+ StructureID s +:+ "/eta.json?auth="
  +:+ Token c.

Definition PUT (url : string) (body : Bytes) : Request :=
  mkRequest "PUT" url [("Content-Type", "application/json")] body.



(** The PUT of [setThermostat] and of [setStructure] for a client as it
    is, the PUT of [SetETA], and the GET of [getStructures] once a
    redirect URL is cached. *)
Definition thermostat_PUT (c : Client) (t : Thermostat) (body : Bytes) : Request :=
  PUT (thermostat_path t c) body.

Definition structure_PUT (c : Client) (s : Structure) (body : Bytes) : Request :=
  PUT (structure_path s c) body.

Definition eta_PUT (c : Client) (s : Structure) (body : Bytes) : Request :=
  mkRequest "PUT"
    (RedirectURL c +:+ "/structures/" +:+ StructureID s +:+ "/eta.json?auth="
     +:+ Token c)
    [] body.

Definition structures_GET (c : Client) (action : Z) : Request :=
  mkRequest "GET" (RedirectURL c +:+ "/structures.json?auth=" +:+ Token c)
    (if decide (action = Stream) then [("Accept", "text/event-stream")] else [])
    NoBytes.

(** The two resources that are written with a PUT, and their setter. *)
Inductive Resource :=
| AThermostat (t : Thermostat)
| AStructure (s : Structure).

Definition resource_Client (r : Resource) : option loc :=
  match r with
  | AThermostat t => Thermostat_Client t
  | AStructure s => Structure_Client s
  end.

Definition resource_path (r : Resource) : Client → string :=
  match r with
  | AThermostat t => thermostat_path t
  | AStructure s => structure_path s
  end.

Definition set_resource (r : Resource) : Bytes → M W (option APIError) :=
  match r with
  | AThermostat t => setThermostat t
  | AStructure s => setStructure s
  end.

(** The error of the PUT for a response that is not a 200. *)
Definition status_error (resp : Response) : APIError :=
  mkAPIError "api_error"
    (Error (target_after zero_APIError
              (json_APIError (fst (ReadAll (resp_Body resp))))))
    (resp_Status resp) (resp_StatusCode resp).

(** After [o], the first request since [st] is [req]. *)
Definition sends_first {A} (st : State W) (req : Request) (o : Outcome W A) : Prop :=
  ∃ rest, sent (final o) = sent st ++ req :: rest.

(** The GET of [getStructures] while no redirect URL is cached. *)
Definition first_GET (c : Client) : Request :=
  mkRequest "GET" (APIURL c +:+ "/structures.json?auth=" +:+ Token c) [] NoBytes.

(** The client once [url] is cached. *)
Definition redirected (c : Client) (url : string) : Client :=
  mkClient (APIURL c) url (Token c).

(** The scheme and host of a URL, as the code caches them. *)
Definition scheme_host (u : URL) : string := Scheme u +:+ "://" +:+ Host u.

(** What the first [n] connection attempts of the stream give, when each
    sends [req] and the environment starts as [w]. *)
Fixpoint attempts (n : nat) (w : W) (req : Request) : list DoResult :=
  match n with
  | O => []
  | S n => let (w', r) := RoundTrip w req in r :: attempts n w' req
  end.

(** The environment after these [n] attempts. *)
Fixpoint world_after (n : nat) (w : W) (req : Request) : W :=
  match n with
  | O => w
  | S n => world_after n (fst (RoundTrip w req)) req
  end.

(** The mapping that a line of the stream carries, if any. *)
Definition line_data (line : string) : option Structures_map :=
  let value := parseStreamData line in
  if decide (value = "") then None
  else Data (target_after (mkStructuresEvent None) (json_StructuresEvent value)).

(** No nil entry in the mapping of the line. *)
Definition line_sound (line : string) : Prop :=
  match line_data line with
  | Some data => map_Forall (fun _ value => is_Some value) data
  | None => True
  end.

(** What the callback receives for a line, for the lines of a body and
    for a connection attempt. *)
Definition line_deliveries (c : loc) (line : string) : list CallbackArgs :=
  match line_data line with
  | Some data => [(Some (associate c <$> data), None)]
  | None => []
  end.

Definition body_deliveries (c : loc) (lines : list string) : list CallbackArgs :=
  flat_map (line_deliveries c) lines.

Definition attempt_deliveries (c : loc) (r : DoResult) : list CallbackArgs :=
  match snd r with
  | Some err => [(None, Some err)]
  | None =>
      match fst r with
      | Some resp => body_deliveries c (body_lines (resp_Body resp))
      | None => []
      end
  end.

(** An attempt that fails, or that connects to a body whose mappings
    have no nil entry. *)
Definition attempt_sound (r : DoResult) : Prop :=
  match snd r with
  | Some _ => True
  | None =>
      match fst r with
      | Some resp => Forall line_sound (body_lines (resp_Body resp))
      | None => False
      end
  end.

End Operations.

(** ** A scripted environment and sample declarations, for the examples *)

(** A URL without a control character (a code below 32, or 127): the
    ground on which the parser of the scripted environment refuses a
    URL. *)
Fixpoint printable (url : string) : bool :=
  match url with
  | EmptyString => true
  | String a url =>
      let n := Ascii.N_of_ascii a in
      negb (N.ltb n 32) && negb (N.eqb n 127) && printable url
  end.

(** The environment answers the requests with the results of a script, in
    order, and refuses the connection once the script is used up; its
    clock stands still; it parses the URLs that are [printable]. *)
Record Script := mkScript {
  script_results : list DoResult;
  script_clock : Time
}.

#[global] Instance Script_Runtime : Runtime Script := {|
  RoundTrip w req :=
    match script_results w with
    | [] => (w, (None, Some "connection refused"))
    | r :: rs => (mkScript rs (script_clock w), r)
    end;
  Now w := (w, script_clock w);
  url_parses := printable
|}.

Definition dquote : string := String (Ascii.ascii_of_nat 34) EmptyString.
Definition newline : string := String (Ascii.ascii_of_nat 10) EmptyString.

(** Modelled from the spec: [parseStreamData], which is not in the two
    source files. The one recognized prefix is the [data:] of the
    event-stream format; the payload is the remainder of the line, and a
    line without the prefix has none. *)
Definition parseStreamData_spec (line : string) : string :=
  if String.prefix "data:" line
  then String.substring 5 (String.length line - 5) line
  else "".

#[global] Instance sample_declarations : Declarations := {|
  Cool := 0; Heat := 1; HeatCool := 2; Off := 3;
  hvac_modes_distinct := bool_decide_unpack (NoDup [0; 1; 2; 3]) I;
  Home := 0; Away := 1; AutoAway := 2;
  away_modes_distinct := bool_decide_unpack (NoDup [0; 1; 2]) I;
  Stream := 1; NoStream := 0;
  parseStreamData := parseStreamData_spec
|}.

(** [ {"data":{"structure1":{"away":"home"}}}], [ {"data":null}] and
    [ {"data":{"structure1":], each with its newline: payloads of data
    lines. *)
Definition event_payload : string :=
  " {" +:+ dquote +:+ "data" +:+ dquote +:+ ":{" +:+ dquote +:+ "structure1"
  +:+ dquote +:+ ":{" +:+ dquote +:+ "away" +:+ dquote +:+ ":" +:+ dquote
  +:+ "home" +:+ dquote +:+ "}}}" +:+ newline.

Definition null_payload : string :=
  " {" +:+ dquote +:+ "data" +:+ dquote +:+ ":null}" +:+ newline.

Definition broken_payload : string :=
  " {" +:+ dquote +:+ "data" +:+ dquote +:+ ":{" +:+ dquote +:+ "structure1"
  +:+ dquote +:+ ":" +:+ newline.

(** [{"structure1":{"away":"home"}}] and [{"error":"blocked"}]: bodies
    of responses. *)
Definition structures_body : string :=
  "{" +:+ dquote +:+ "structure1" +:+ dquote +:+ ":{" +:+ dquote +:+ "away"
  +:+ dquote +:+ ":" +:+ dquote +:+ "home" +:+ dquote +:+ "}}".

Definition error_body : string :=
  "{" +:+ dquote +:+ "error" +:+ dquote +:+ ":" +:+ dquote +:+ "blocked"
  +:+ dquote +:+ "}".

(** [{"structure1":{"away":"home","name":5}}]: JSON, with a number where
    the structure has a string. *)
Definition mismatch_body : string :=
  "{" +:+ dquote +:+ "structure1" +:+ dquote +:+ ":{" +:+ dquote +:+ "away"
  +:+ dquote +:+ ":" +:+ dquote +:+ "home" +:+ dquote +:+ "," +:+ dquote
  +:+ "name" +:+ dquote +:+ ":5}}".

Definition sample_structures : Structures_map :=
  {[ "structure1" := Some (mkStructure "" "home" None) ]}.

(** A decoder that knows the texts above and takes every other text for
    broken JSON. *)
#[global] Instance sample_codec : JSONCodec := {|
  json_APIError body :=
    if decide (body = error_body)
    then Stored (mkAPIError "blocked" "" "" 0) None
    else SyntaxError "unexpected end of JSON input";
  json_Thermostat body := SyntaxError "unexpected end of JSON input";
  json_Structure body := SyntaxError "unexpected end of JSON input";
  json_Structures body :=
    if decide (body = structures_body)
    then Stored sample_structures None
    else if decide (body = mismatch_body)
    then Stored sample_structures
                (Some "json: cannot unmarshal number into Go struct field")
    else SyntaxError "unexpected end of JSON input";
  json_StructuresEvent value :=
    if decide (value = event_payload)
    then Stored (mkStructuresEvent (Some sample_structures)) None
    else if decide (value = null_payload)
    then Stored (mkStructuresEvent None) None
    else SyntaxError "unexpected end of JSON input";
  time_marshals t := true
|}.

(** A client that has its redirect URL, a fresh one, and a thermostat and
    a structure of the first. *)
Definition sample_client : Client :=
  mkClient "https://developer-api.nest.com" "https://firebase-apiserver01.nest.com"
           "c.token".
Definition fresh_client : Client :=
  mkClient "https://developer-api.nest.com" "" "c.token".

Definition sample_thermostat : Thermostat := mkThermostat "peyiJNo0" (Some 1%positive).
Definition sample_structure : Structure :=
  mkStructure "VqFabWH2" "home" (Some 1%positive).

Definition sample_state (c : Client) (script : list DoResult) : State Script :=
  mkState {[ 1%positive := c ]} (mkScript script 1000) [] [].

Definition ok_response (body : string) : Response :=
  mkResponse "200 OK" 200 (Some (mkURL "https" "firebase-apiserver01.nest.com"))
             (mkBody [] body None).

Definition redirect_response : Response :=
  mkResponse "307 Temporary Redirect" 307
             (Some (mkURL "https" "firebase-apiserver02.nest.com"))
             (mkBody [] "" None).

Definition stream_response (lines : list string) : Response :=
  mkResponse "200 OK" 200 (Some (mkURL "https" "firebase-apiserver01.nest.com"))
             (mkBody lines "" None).

(** ** Programs of calls, and what a call keeps *)

(** [c'] is the client [c] some calls later: the same API URL and token,
    and a redirect URL if [c] had one. *)
Definition same_account (c c' : Client) : Prop :=
  APIURL c' = APIURL c ∧ Token c' = Token c
  ∧ (RedirectURL c ≠ "" → RedirectURL c' ≠ "").

(** From [st] to [st'] the heap has the same clients, each the same
    account, and no request and no delivery was taken back. *)
Definition evolves {W} (st st' : State W) : Prop :=
  (∀ l, match clients st !! l, clients st' !! l with
        | Some c, Some c' => same_account c c'
        | None, None => True
        | _, _ => False
        end)
  ∧ sent st `prefix_of` sent st'
  ∧ delivered st `prefix_of` delivered st'.

(** An operation that only lets the state evolve, however it ends. *)
Definition keeps {W A} (m : M W A) : Prop :=
  ∀ st, evolves st (final (m st)).

(** The calls that a program makes on the package: the setters, the
    fetch, and rounds of the loop of the stream. *)
Inductive Call :=
| CallSetFanTimerActive (t : Thermostat) (setting : bool)
| CallSetHvacMode (t : Thermostat) (mode : Z)
| CallSetTargetTempC (t : Thermostat) (temp : float32)
| CallSetTargetTempF (t : Thermostat) (temp : Z)
| CallSetTargetTempHighLowC (t : Thermostat) (high low : float32)
| CallSetTargetTempHighLowF (t : Thermostat) (high low : Z)
| CallSetAway (s : Structure) (mode : Z)
| CallSetETA (s : Structure) (tripID : string) (begin end_ : Time)
| CallStructures (c : loc)
| CallStream (rounds : nat) (c : loc).

Section Programs.

Context {W : Type} {RT : Runtime W} {JC : JSONCodec} {D : Declarations}.

(** A call, its result dropped. *)
Definition perform (call : Call) : M W unit :=
  match call with
  | CallSetFanTimerActive t setting =>
      bind (SetFanTimerActive t setting) (fun _ => ret tt)
  | CallSetHvacMode t mode => bind (SetHvacMode t mode) (fun _ => ret tt)
  | CallSetTargetTempC t temp => bind (SetTargetTempC t temp) (fun _ => ret tt)
  | CallSetTargetTempF t temp => bind (SetTargetTempF t temp) (fun _ => ret tt)
  | CallSetTargetTempHighLowC t high low =>
      bind (SetTargetTempHighLowC t high low) (fun _ => ret tt)
  | CallSetTargetTempHighLowF t high low =>
      bind (SetTargetTempHighLowF t high low) (fun _ => ret tt)
  | CallSetAway s mode => bind (SetAway s mode) (fun _ => ret tt)
  | CallSetETA s tripID begin end_ =>
      bind (SetETA s tripID begin end_) (fun _ => ret tt)
  | CallStructures c => bind (Structures c) (fun _ => ret tt)
  | CallStream rounds c => stream_loop rounds c
  end.

(** The calls of a program, one after the other, up to a panic. *)
Fixpoint perform_all (calls : list Call) : M W unit :=
  match calls with
  | [] => ret tt
  | call :: calls => bind (perform call) (fun _ => perform_all calls)
  end.

(** The delivery that a line of the stream stands for, if any. *)
Definition line_delivery (c : loc) (line : string) : option CallbackArgs :=
  match line_data line with
  | Some data => Some (Some (associate c <$> data), None)
  | None => None
  end.

End Programs.

(** [ {"data":{"structure1":5}}], with its newline: a payload that is
    JSON and has a number where a structure belongs. *)
Definition mismatch_payload : string :=
  " {" +:+ dquote +:+ "data" +:+ dquote +:+ ":{" +:+ dquote +:+ "structure1"
  +:+ dquote +:+ ":5}}" +:+ newline.

(** A decoder for the events of the stream that, for the payload above,
    reports the mismatch after it has stored the mapping with a blank
    structure; for the rest it is the decoder of the examples. *)
Definition mismatch_codec : JSONCodec := {|
  json_APIError := @json_APIError sample_codec;
  json_Thermostat := @json_Thermostat sample_codec;
  json_Structure := @json_Structure sample_codec;
  json_Structures := @json_Structures sample_codec;
  json_StructuresEvent value :=
    if decide (value = mismatch_payload)
    then Stored (mkStructuresEvent
                   (Some {[ "structure1" := Some (mkStructure "" "" None) ]}))
                (Some "json: cannot unmarshal number into Go value")
    else @json_StructuresEvent sample_codec value;
  time_marshals := @time_marshals sample_codec
|}.

(** A mapping with a null entry, and a decoder that finds it in the
    payload [ {"data":{"structure1":null}}]. *)
Definition null_entry_payload : string :=
  " {" +:+ dquote +:+ "data" +:+ dquote +:+ ":{" +:+ dquote +:+ "structure1"
  +:+ dquote +:+ ":null}}" +:+ newline.

Definition null_entry_codec : JSONCodec := {|
  json_APIError := @json_APIError sample_codec;
  json_Thermostat := @json_Thermostat sample_codec;
  json_Structure := @json_Structure sample_codec;
  json_Structures := @json_Structures sample_codec;
  json_StructuresEvent value :=
    if decide (value = null_entry_payload)
    then Stored (mkStructuresEvent (Some {[ "structure1" := None ]})) None
    else @json_StructuresEvent sample_codec value;
  time_marshals := @time_marshals sample_codec
|}.

(** [{"structure1":null,"structure2":5}]: the body of a map with a null
    entry and with a number where a structure belongs. The decoder
    stores the nil pointer and a blank structure, and reports the
    mismatch. *)
Definition null_mismatch_body : string :=
  "{" +:+ dquote +:+ "structure1" +:+ dquote +:+ ":null," +:+ dquote
  +:+ "structure2" +:+ dquote +:+ ":5}".

Definition null_mismatch_codec : JSONCodec := {|
  json_APIError := @json_APIError sample_codec;
  json_Thermostat := @json_Thermostat sample_codec;
  json_Structure := @json_Structure sample_codec;
  json_Structures body :=
    if decide (body = null_mismatch_body)
    then Stored {[ "structure1" := None;
                   "structure2" := Some (mkStructure "" "" None) ]}
                (Some "json: cannot unmarshal number into Go value")
    else @json_Structures sample_codec body;
  json_StructuresEvent := @json_StructuresEvent sample_codec;
  time_marshals := @time_marshals sample_codec
|}.

(** NaN, as a float32. *)
Definition f32_nan : float32 := mkFloat32 S754_nan eq_refl.

(** * Properties *)

(** ** float32 comparisons *)

Lemma SFcompare_swap (a b : spec_float) :
  SFcompare b a = option_map CompOpp (SFcompare a b).
Proof.
  destruct a as [sa|sa| |sa ma ea], b as [sb|sb| |sb mb eb]; simpl;
    try reflexivity;
    try (destruct sa; reflexivity); try (destruct sb; reflexivity);
    try (destruct sa, sb; reflexivity).
  assert (Hm : Pos.compare_cont Eq ma mb = CompOpp (Pos.compare_cont Eq mb ma))
    by (symmetry; exact (Pos.compare_cont_antisym mb ma Eq)).
  rewrite (Z.compare_antisym eb ea), Hm.
  destruct sa, sb, (eb ?= ea)%Z, (Pos.compare_cont Eq mb ma); reflexivity.
Qed.

Lemma f32_le_not_lt (a b : float32) : f32_le a b = true → f32_lt b a = false.
Proof.
  unfold f32_le, f32_lt, SFleb, SFltb.
  rewrite (SFcompare_swap (f32_val a) (f32_val b)).
  destruct (SFcompare (f32_val a) (f32_val b)) as [[ | | ]|]; simpl; congruence.
Qed.

Lemma f32_lt_not_le (a b : float32) : f32_lt a b = true → f32_le b a = false.
Proof.
  unfold f32_le, f32_lt, SFleb, SFltb.
  rewrite (SFcompare_swap (f32_val a) (f32_val b)).
  destruct (SFcompare (f32_val a) (f32_val b)) as [[ | | ]|]; simpl; congruence.
Qed.

Lemma f32_between_finite (lo hi t : float32) :
  f32_finite lo = true → f32_finite hi = true →
  f32_le lo t = true → f32_le t hi = true → f32_finite t = true.
Proof.
  unfold f32_finite, f32_le, SFleb.
  destruct lo as [[sl|sl| |sl ml el] ?], hi as [[sh|sh| |sh mh eh] ?],
           t as [[st|st| |st mt et] ?]; simpl; try congruence;
    try (destruct st; congruence).
Qed.

Section Properties.

Context {W : Type} {RT : Runtime W} {JC : JSONCodec} {D : Declarations}.

(** ** The PUT and its one retry *)

Lemma setThermostat_put_retry (t : Thermostat) (body : Bytes) :
  setThermostat t body
  = put_retry json_Thermostat (Thermostat_Client t) (thermostat_path t) body.
Proof. reflexivity. Qed.

Lemma setStructure_put_retry (s : Structure) (body : Bytes) :
  setStructure s body
  = put_retry json_Structure (Structure_Client s) (structure_path s) body.
Proof. reflexivity. Qed.

(** A URL that does not parse: the request is nil, and the PUT panics
    at [req.Header.Set] with nothing sent. *)
Lemma put_retry_unparsable {A} (decode : string → Unmarshaled A) (p : option loc)
    (path : Client → string) (body : Bytes) (st : State W) (l : loc) (c : Client) :
  p = Some l →
  clients st !! l = Some c →
  url_parses (path c) = false →
  put_retry decode p path body st = Panic st.
Proof.
  intros -> Hc Hurl. unfold put_retry, bind, deref, NewRequest.
  rewrite Hc, Hurl. reflexivity.
Qed.

(** The whole run of the PUT of a URL that parses, by cases on what the
    environment answers. *)
Lemma put_retry_run {A} (decode : string → Unmarshaled A) (p : option loc)
    (path : Client → string) (body : Bytes) (st : State W) (l : loc) (c : Client)
    (w1 : W) (r1 : DoResult) :
  p = Some l →
  clients st !! l = Some c →
  url_parses (path c) = true →
  RoundTrip (world st) (PUT (path c) body) = (w1, r1) →
  put_retry decode p path body st =
    let st1 := mkState (clients st) w1 (sent st ++ [PUT (path c) body])
                       (delivered st) in
    match snd r1 with
    | Some err => Ret (Some (http_error err)) st1
    | None =>
        match fst r1 with
        | None => Panic st1
        | Some resp =>
            if decide (resp_StatusCode resp = 307) then
              match resp_Request_URL resp with
              | None => Panic st1
              | Some u =>
                  let c' := redirected c (scheme_host u) in
                  if url_parses (path c') then
                    let (w2, r2) := RoundTrip w1 (PUT (path c') body) in
                    let st2 :=
                      mkState (<[l := c']> (clients st)) w2
                              (sent st ++ [PUT (path c) body; PUT (path c') body])
                              (delivered st) in
                    match snd r2 with
                    | Some err => Ret (Some (http_error err)) st2
                    | None =>
                        match fst r2 with
                        | None => Panic st2
                        | Some response => Ret (read_response decode response) st2
                        end
                    end
                  else
                    Panic (mkState (<[l := c']> (clients st)) w1
                                   (sent st ++ [PUT (path c) body]) (delivered st))
              end
            else Ret (read_response decode resp) st1
        end
    end.
Proof.
  intros -> Hc Hurl Hrt.
  unfold put_retry, bind, deref, Do, NewRequest, Header_Set, PUT in *.
  rewrite Hc, Hurl. cbn [nonnil ret].
  cbn [req_Method req_URL req_Header req_Body app] in *.
  rewrite Hrt.
  destruct r1 as [[resp|] [err|]]; cbn [fst snd nonnil ret panic]; try reflexivity.
  destruct (decide (resp_StatusCode resp = 307)) as [H307|H307]; [|reflexivity].
  destruct (resp_Request_URL resp) as [u|]; cbn [nonnil ret panic]; [|reflexivity].
  unfold set_RedirectURL, bind, deref, nonnil, ret.
  cbn [clients world sent delivered].
  rewrite Hc. cbn [clients world sent delivered].
  rewrite lookup_insert_eq.
  unfold redirected, scheme_host. cbn [clients world sent delivered].
  match goal with
  | |- context [url_parses ?url] => destruct (url_parses url)
  end; [|reflexivity].
  cbn [req_Method req_URL req_Header req_Body app clients world sent delivered].
  destruct (RoundTrip w1 _) as [w2 [[response|] [err|]]];
    cbn [fst snd]; rewrite <- ?app_assoc; reflexivity.
Qed.

Lemma read_response_200 {A} (decode : string → Unmarshaled A) (resp : Response) :
  resp_StatusCode resp = 200 → read_response decode resp = None.
Proof. intros H. unfold read_response. rewrite decide_True by exact H. reflexivity. Qed.

Lemma read_response_other {A} (decode : string → Unmarshaled A) (resp : Response) :
  resp_StatusCode resp ≠ 200 → read_response decode resp = Some (status_error resp).
Proof. intros H. unfold read_response. rewrite decide_False by exact H. reflexivity. Qed.

(** With a client behind the pointer and a URL that parses, the first
    thing that happens is the PUT against the base URL that the client
    has. *)
Lemma put_retry_first_request {A} (decode : string → Unmarshaled A)
    (p : option loc) (path : Client → string) (body : Bytes) (st : State W)
    (l : loc) (c : Client) :
  p = Some l →
  clients st !! l = Some c →
  url_parses (path c) = true →
  ∃ rest, sent (final (put_retry decode p path body st))
          = sent st ++ PUT (path c) body :: rest.
Proof.
  intros Hp Hc Hurl.
  destruct (RoundTrip (world st) (PUT (path c) body)) as [w1 r1] eqn:Hrt.
  rewrite (put_retry_run decode p path body st l c w1 r1 Hp Hc Hurl Hrt).
  cbv zeta.
  destruct r1 as [[resp|] [err|]]; cbn [fst snd final sent];
    try (exists []; reflexivity).
  destruct (decide (resp_StatusCode resp = 307)); [|exists []; reflexivity].
  destruct (resp_Request_URL resp) as [u|]; [|exists []; reflexivity].
  destruct (url_parses (path (redirected c (scheme_host u))));
    [|exists []; reflexivity].
  destruct (RoundTrip w1 _) as [w2 [[response|] [err|]]];
    cbn [fst snd final sent]; eexists; reflexivity.
Qed.

Lemma set_resource_put_retry (r : Resource) (body : Bytes) :
  set_resource r body
  = match r with
    | AThermostat t =>
        put_retry json_Thermostat (resource_Client r) (resource_path r) body
    | AStructure s =>
        put_retry json_Structure (resource_Client r) (resource_path r) body
    end.
Proof. destruct r; reflexivity. Qed.

Lemma set_resource_first_request (r : Resource) (body : Bytes) (st : State W)
    (l : loc) (c : Client) :
  resource_Client r = Some l →
  clients st !! l = Some c →
  url_parses (resource_path r c) = true →
  ∃ rest, sent (final (set_resource r body st))
          = sent st ++ PUT (resource_path r c) body :: rest.
Proof.
  intros Hp Hc Hurl. rewrite set_resource_put_retry.
  destruct r; eapply put_retry_first_request; eassumption.
Qed.

(** C1. For a PUT of [setThermostat] or [setStructure] that is issued
    (its URL parses): when the first answer is a 307, the redirect URL
    of the client becomes the scheme and host of the URL of the request
    behind that answer, the URL is built again on the new base, and,
    this URL parsing as well, the PUT goes out once more and nothing is
    sent after it. A transport failure of the retry comes back as
    [http_error]; a second 307, like every status but 200, as the error
    of that status; and a 200 as nil. The client keeps the new base, so
    the next PUT of any resource of this client goes to it at once. *)
Theorem PUT_307_retried_once (r : Resource) (body : Bytes) (st : State W)
    (l : loc) (c : Client) (w1 w2 : W) (resp1 : Response) (u : URL)
    (r2 : DoResult) :
  resource_Client r = Some l →
  clients st !! l = Some c →
  url_parses (resource_path r c) = true →
  RoundTrip (world st) (PUT (resource_path r c) body) = (w1, (Some resp1, None)) →
  resp_StatusCode resp1 = 307 →
  resp_Request_URL resp1 = Some u →
  url_parses (resource_path r (redirected c (scheme_host u))) = true →
  RoundTrip w1 (PUT (resource_path r (redirected c (scheme_host u))) body)
    = (w2, r2) →
  let c' := redirected c (scheme_host u) in
  let st2 :=
    mkState (<[l := c']> (clients st)) w2
            (sent st ++ [PUT (resource_path r c) body;
                         PUT (resource_path r c') body])
            (delivered st) in
  (∀ err, snd r2 = Some err →
     set_resource r body st = Ret (Some (http_error err)) st2)
  ∧ (∀ resp2, r2 = (Some resp2, None) → resp_StatusCode resp2 = 307 →
       set_resource r body st = Ret (Some (status_error resp2)) st2
       ∧ StatusCode (status_error resp2) = 307)
  ∧ (∀ resp2, r2 = (Some resp2, None) → resp_StatusCode resp2 ≠ 200 →
       set_resource r body st = Ret (Some (status_error resp2)) st2
       ∧ Error (status_error resp2) = "api_error"
       ∧ StatusCode (status_error resp2) = resp_StatusCode resp2)
  ∧ (∀ resp2, r2 = (Some resp2, None) → resp_StatusCode resp2 = 200 →
       set_resource r body st = Ret None st2)
  ∧ clients st2 !! l = Some c'
  ∧ RedirectURL c' = Scheme u +:+ "://" +:+ Host u
  ∧ (∀ r' body', resource_Client r' = Some l →
       url_parses (resource_path r' c') = true →
       ∃ rest, sent (final (set_resource r' body' st2))
               = sent st2 ++ PUT (resource_path r' c') body' :: rest).
Proof.
  intros Hp Hc Hurl1 Hrt1 H307 Hu Hurl2 Hrt2 c' st2.
  assert (Hrun : ∀ A (decode : string → Unmarshaled A),
            put_retry decode (resource_Client r) (resource_path r) body st
            = match snd r2 with
              | Some err => Ret (Some (http_error err)) st2
              | None =>
                  match fst r2 with
                  | None => Panic st2
                  | Some response => Ret (read_response decode response) st2
                  end
              end).
  { intros A decode.
    rewrite (put_retry_run decode _ _ body st l c w1 _ Hp Hc Hurl1 Hrt1).
    cbn [fst snd]. cbv zeta. rewrite decide_True by exact H307.
    rewrite Hu, Hurl2, Hrt2. reflexivity. }
  assert (Hset : set_resource r body st
            = match snd r2 with
              | Some err => Ret (Some (http_error err)) st2
              | None =>
                  match fst r2 with
                  | None => Panic st2
                  | Some response =>
                      Ret (if decide (resp_StatusCode response = 200)
                           then None else Some (status_error response)) st2
                  end
              end).
  { rewrite set_resource_put_retry.
    destruct r; rewrite Hrun; destruct r2 as [[response|] [err|]];
      cbn [fst snd]; try reflexivity;
      destruct (decide (resp_StatusCode response = 200)) as [H|H];
      rewrite ?(read_response_200 _ _ H), ?(read_response_other _ _ H);
      reflexivity. }
  split; [|split; [|split; [|split; [|split; [|split]]]]].
  - intros err Herr. rewrite Hset, Herr. reflexivity.
  - intros resp2 -> H. rewrite Hset. cbn [fst snd].
    rewrite decide_False by lia. split; [reflexivity|exact H].
  - intros resp2 -> H. rewrite Hset. cbn [fst snd].
    rewrite decide_False by exact H. repeat split.
  - intros resp2 -> H200. rewrite Hset. cbn [fst snd].
    rewrite decide_True by exact H200. reflexivity.
  - subst st2. cbn [clients]. apply lookup_insert_eq.
  - reflexivity.
  - intros r' body' Hp' Hurl'.
    eapply set_resource_first_request; [exact Hp'| |exact Hurl'].
    subst st2. cbn [clients]. apply lookup_insert_eq.
Qed.

(** ** The setters of a thermostat *)

Lemma Marshal_supported (o : gmap string JVal) :
  map_Forall (fun _ v => json_supported v = true) o → Marshal o = JSONText o.
Proof. intros H. unfold Marshal. rewrite decide_True by exact H. reflexivity. Qed.

Lemma Marshal_unsupported (o : gmap string JVal) (k : string) (v : JVal) :
  o !! k = Some v → json_supported v = false → Marshal o = NoBytes.
Proof.
  intros Hk Hv. unfold Marshal. rewrite decide_False; [reflexivity|].
  intros Hall. specialize (Hall k v Hk). simpl in Hall. congruence.
Qed.

Lemma Marshal_singleton (k : string) (v : JVal) :
  json_supported v = true → Marshal (<[k := v]> ∅) = JSONText {[ k := v ]}.
Proof.
  intros Hv. rewrite insert_empty. apply Marshal_supported.
  apply map_Forall_singleton. exact Hv.
Qed.

Lemma Marshal_pair (k1 k2 : string) (v1 v2 : JVal) :
  k1 ≠ k2 → json_supported v1 = true → json_supported v2 = true →
  Marshal (<[k2 := v2]> (<[k1 := v1]> ∅)) = JSONText {[ k1 := v1; k2 := v2 ]}.
Proof.
  intros Hne H1 H2. rewrite insert_insert_ne by congruence. rewrite insert_empty.
  apply Marshal_supported.
  apply map_Forall_insert_2; [exact H1|]. apply map_Forall_singleton. exact H2.
Qed.

Lemma setThermostat_sends_first (t : Thermostat) (body : Bytes) (st : State W)
    (l : loc) (c : Client) :
  Thermostat_Client t = Some l →
  clients st !! l = Some c →
  url_parses (thermostat_path t c) = true →
  sends_first st (thermostat_PUT c t body) (setThermostat t body st).
Proof.
  intros Hp Hc Hurl.
  exact (set_resource_first_request (AThermostat t) body st l c Hp Hc Hurl).
Qed.

Lemma setStructure_sends_first (s : Structure) (body : Bytes) (st : State W)
    (l : loc) (c : Client) :
  Structure_Client s = Some l →
  clients st !! l = Some c →
  url_parses (structure_path s c) = true →
  sends_first st (structure_PUT c s body) (setStructure s body st).
Proof.
  intros Hp Hc Hurl.
  exact (set_resource_first_request (AStructure s) body st l c Hp Hc Hurl).
Qed.

(** A setter that has been shown to be [setThermostat] on [body] sends
    the PUT of [body] first, when the URL parses. *)
Ltac first_request_by Heq :=
  let l := fresh "l" in
  let c := fresh "c" in
  let Hp := fresh "Hp" in
  let Hc := fresh "Hc" in
  let Hurl := fresh "Hurl" in
  split; [exact Heq|];
  intros l c Hp Hc Hurl; rewrite Heq;
  apply (setThermostat_sends_first _ _ _ l c Hp Hc Hurl).

Lemma hvac_modes_ne :
  Cool ≠ Heat ∧ Cool ≠ HeatCool ∧ Cool ≠ Off
  ∧ Heat ≠ HeatCool ∧ Heat ≠ Off ∧ HeatCool ≠ Off.
Proof.
  pose proof hvac_modes_distinct as Hd.
  rewrite !NoDup_cons, !not_elem_of_cons in Hd.
  intuition congruence.
Qed.

(** C7. A mode that is none of [Cool], [Heat], [HeatCool] and [Off]
    makes [SetHvacMode] return an [api_error] and leaves the state as it
    was: nothing is sent. For each of the four, the call is the PUT of
    the object that maps [hvac_mode] to the string of the mode, and with
    a client behind the thermostat and a URL that parses that PUT is the
    first request. *)
Theorem SetHvacMode_modes (t : Thermostat) (mode : Z) (st : State W) :
  (mode ∉ [Cool; Heat; HeatCool; Off] →
     ∃ e, SetHvacMode t mode st = Ret (Some e) st ∧ Error e = "api_error")
  ∧ (∀ lit,
       (mode, lit) ∈ [(Cool, "cool"); (Heat, "heat");
                      (HeatCool, "heat-cool"); (Off, "off")] →
       let body := JSONText {[ "hvac_mode" := JString lit ]} in
       SetHvacMode t mode st = setThermostat t body st
       ∧ ∀ l c, Thermostat_Client t = Some l → clients st !! l = Some c →
           url_parses (thermostat_path t c) = true →
           sends_first st (thermostat_PUT c t body) (SetHvacMode t mode st)).
Proof.
  destruct hvac_modes_ne as (H1 & H2 & H3 & H4 & H5 & H6).
  split.
  - intros Hmode. rewrite !not_elem_of_cons in Hmode.
    destruct Hmode as (? & ? & ? & ? & _).
    eexists. unfold SetHvacMode. rewrite !decide_False by assumption.
    split; reflexivity.
  - intros lit Hin body.
    assert (Heq : SetHvacMode t mode st = setThermostat t body st).
    { rewrite !elem_of_cons, elem_of_nil in Hin. unfold SetHvacMode, body.
      destruct Hin as [Hin|[Hin|[Hin|[Hin|[]]]]]; inversion Hin; subst mode lit.
      - rewrite decide_True by reflexivity.
        rewrite Marshal_singleton by reflexivity. reflexivity.
      - rewrite decide_False by congruence. rewrite decide_True by reflexivity.
        rewrite Marshal_singleton by reflexivity. reflexivity.
      - rewrite !decide_False by congruence. rewrite decide_True by reflexivity.
        rewrite Marshal_singleton by reflexivity. reflexivity.
      - rewrite !decide_False by congruence. rewrite decide_True by reflexivity.
        rewrite Marshal_singleton by reflexivity. reflexivity. }
    first_request_by Heq.
Qed.

(** C8. A Celsius target below 9 or above 32 makes [SetTargetTempC]
    return an [api_error] with nothing sent, and a target from 9 to 32
    is PUT as [{"target_temperature_c": t}]; [SetTargetTempF] does the same
    with the bounds 50 and 90 and the key [target_temperature_f]. The
    PUT is the first request when there is a client behind the
    thermostat and the URL parses. *)
Theorem SetTargetTemp_range (t : Thermostat) (st : State W) :
  (∀ temp : float32,
     f32_lt temp f32_9 = true ∨ f32_lt f32_32 temp = true →
     ∃ e, SetTargetTempC t temp st = Ret (Some e) st ∧ Error e = "api_error")
  ∧ (∀ temp : float32,
       f32_le f32_9 temp = true ∧ f32_le temp f32_32 = true →
       let body := JSONText {[ "target_temperature_c" := JFloat32 temp ]} in
       SetTargetTempC t temp st = setThermostat t body st
       ∧ ∀ l c, Thermostat_Client t = Some l → clients st !! l = Some c →
           url_parses (thermostat_path t c) = true →
           sends_first st (thermostat_PUT c t body) (SetTargetTempC t temp st))
  ∧ (∀ temp : Z,
       (temp < 50 ∨ temp > 90)%Z →
       ∃ e, SetTargetTempF t temp st = Ret (Some e) st ∧ Error e = "api_error")
  ∧ (∀ temp : Z,
       (50 ≤ temp ≤ 90)%Z →
       let body := JSONText {[ "target_temperature_f" := JInt temp ]} in
       SetTargetTempF t temp st = setThermostat t body st
       ∧ ∀ l c, Thermostat_Client t = Some l → clients st !! l = Some c →
           url_parses (thermostat_path t c) = true →
           sends_first st (thermostat_PUT c t body) (SetTargetTempF t temp st)).
Proof.
  split; [|split; [|split]].
  - intros temp Hout. eexists. unfold SetTargetTempC.
    replace (f32_lt temp f32_9 || f32_lt f32_32 temp) with true
      by (symmetry; apply orb_true_iff; exact Hout).
    split; reflexivity.
  - intros temp [Hlo Hhi] body.
    assert (Heq : SetTargetTempC t temp st = setThermostat t body st).
    { unfold SetTargetTempC, body.
      rewrite (f32_le_not_lt _ _ Hlo), (f32_le_not_lt _ _ Hhi). cbn [orb].
      rewrite Marshal_singleton; [reflexivity|].
      exact (f32_between_finite f32_9 f32_32 temp eq_refl eq_refl Hlo Hhi). }
    first_request_by Heq.
  - intros temp Hout. eexists. unfold SetTargetTempF.
    replace ((temp <? 50)%Z || (90 <? temp)%Z) with true
      by (symmetry; apply orb_true_iff; rewrite !Z.ltb_lt; lia).
    split; reflexivity.
  - intros temp Hin body.
    assert (Heq : SetTargetTempF t temp st = setThermostat t body st).
    { unfold SetTargetTempF, body.
      replace ((temp <? 50)%Z || (90 <? temp)%Z) with false
        by (symmetry; apply orb_false_iff; rewrite !Z.ltb_ge; lia).
      rewrite Marshal_singleton by reflexivity. reflexivity. }
    first_request_by Heq.
Qed.

(** C9, as the code has it. A high bound below the low bound makes
    both [SetTargetTempHighLowC] and [SetTargetTempHighLowF] return an
    [api_error] with nothing sent. Otherwise a PUT is attempted; its body
    has both bounds under the keys of the unit whenever the bounds are
    finite, which Fahrenheit bounds, being integers, always are, and it
    is empty for a Celsius pair with an infinite bound. The PUT is the
    first request when there is a client behind the thermostat and the
    URL parses. *)
Theorem SetTargetTempHighLow_bounds (t : Thermostat) (st : State W) :
  (∀ high low : float32,
     f32_lt high low = true →
     ∃ e, SetTargetTempHighLowC t high low st = Ret (Some e) st
          ∧ Error e = "api_error")
  ∧ (∀ high low : Z,
       (high < low)%Z →
       ∃ e, SetTargetTempHighLowF t high low st = Ret (Some e) st
            ∧ Error e = "api_error")
  ∧ (∀ high low : Z,
       (low ≤ high)%Z →
       let body := JSONText {[ "target_temperature_high_f" := JInt high;
                               "target_temperature_low_f" := JInt low ]} in
       SetTargetTempHighLowF t high low st = setThermostat t body st
       ∧ ∀ l c, Thermostat_Client t = Some l → clients st !! l = Some c →
           url_parses (thermostat_path t c) = true →
           sends_first st (thermostat_PUT c t body)
                       (SetTargetTempHighLowF t high low st))
  ∧ (∀ high low : float32,
       f32_le low high = true →
       let body :=
         if f32_finite high && f32_finite low
         then JSONText {[ "target_temperature_high_c" := JFloat32 high;
                          "target_temperature_low_c" := JFloat32 low ]}
         else NoBytes in
       SetTargetTempHighLowC t high low st = setThermostat t body st
       ∧ ∀ l c, Thermostat_Client t = Some l → clients st !! l = Some c →
           url_parses (thermostat_path t c) = true →
           sends_first st (thermostat_PUT c t body)
                       (SetTargetTempHighLowC t high low st)).
Proof.
  split; [|split; [|split]].
  - intros high low Hlt. eexists. unfold SetTargetTempHighLowC. rewrite Hlt.
    split; reflexivity.
  - intros high low Hlt. eexists. unfold SetTargetTempHighLowF.
    replace (high <? low)%Z with true by (symmetry; apply Z.ltb_lt; lia).
    split; reflexivity.
  - intros high low Hge body.
    assert (Heq : SetTargetTempHighLowF t high low st = setThermostat t body st).
    { unfold SetTargetTempHighLowF, body.
      replace (high <? low)%Z with false by (symmetry; apply Z.ltb_ge; lia).
      rewrite Marshal_pair by (reflexivity || discriminate). reflexivity. }
    first_request_by Heq.
  - intros high low Hle body.
    assert (Heq : SetTargetTempHighLowC t high low st = setThermostat t body st).
    { unfold SetTargetTempHighLowC, body.
      rewrite (f32_le_not_lt _ _ Hle).
      destruct (f32_finite high) eqn:Hh; [destruct (f32_finite low) eqn:Hl|];
        cbn [andb].
      - rewrite Marshal_pair by (assumption || discriminate). reflexivity.
      - rewrite (Marshal_unsupported _ "target_temperature_low_c" (JFloat32 low));
          [reflexivity| apply lookup_insert_eq | exact Hl].
      - rewrite (Marshal_unsupported _ "target_temperature_high_c" (JFloat32 high));
          [reflexivity| | exact Hh].
        rewrite lookup_insert_ne by discriminate. apply lookup_insert_eq. }
    first_request_by Heq.
Qed.

(** ** The ETA of a structure *)

Lemma checkTimes_run (begin end_ : Time) (st : State W) (w1 : W) (now : Time) :
  Now (world st) = (w1, now) →
  checkTimes begin end_ st =
    Ret (if Before begin now then
           Some (mkAPIError "eta_error"
                   "The begin time must be greater than the time now" "" 0)
         else if Before end_ begin then
           Some (mkAPIError "eta_error"
                   "The end time must be greater than the begin time" "" 0)
         else None)
        (mkState (clients st) w1 (sent st) (delivered st)).
Proof.
  intros Hnow. unfold checkTimes, bind, time_Now. rewrite Hnow.
  destruct (Before begin now); [reflexivity|].
  destruct (Before end_ begin); reflexivity.
Qed.

(** What the code does check: a begin before now, or an end before the
    begin, is refused with an [eta_error] and nothing is sent. *)
Lemma SetETA_before_refused (s : Structure) (tripID : string) (begin end_ : Time)
    (st : State W) (w1 : W) (now : Time) :
  Now (world st) = (w1, now) →
  (begin < now ∨ end_ < begin)%Z →
  ∃ e, SetETA s tripID begin end_ st
       = Ret (Some e) (mkState (clients st) w1 (sent st) (delivered st))
       ∧ Error e = "eta_error".
Proof.
  intros Hnow Hbad. unfold SetETA, bind. rewrite (checkTimes_run _ _ _ _ _ Hnow).
  unfold Before. destruct (Z.ltb_spec begin now) as [Hb|Hb].
  - eexists; split; reflexivity.
  - destruct (Z.ltb_spec end_ begin) as [He|He]; [|lia].
    eexists; split; reflexivity.
Qed.

(** Times that pass the check are PUT to the ETA endpoint, when its URL
    parses; when the two times have a JSON form the body has the three
    fields. Equal times pass the check as well. *)
Lemma SetETA_sent (s : Structure) (tripID : string) (begin end_ : Time)
    (st : State W) (w1 : W) (now : Time) (l : loc) (c : Client) :
  Now (world st) = (w1, now) →
  (now ≤ begin ∧ begin ≤ end_)%Z →
  Structure_Client s = Some l →
  clients st !! l = Some c →
  url_parses (eta_path s c) = true →
  sends_first st (eta_PUT c s (Marshal (ETA_object (mkETA tripID begin end_))))
              (SetETA s tripID begin end_ st)
  ∧ (time_marshals begin = true → time_marshals end_ = true →
     Marshal (ETA_object (mkETA tripID begin end_))
     = JSONText {[ "trip_id" := JString tripID;
                   "estimated_arrival_window_begin" := JTime begin;
                   "estimated_arrival_window_end" := JTime end_ ]}).
Proof.
  intros Hnow [Hb He] Hp Hc Hurl. split.
  - unfold sends_first, SetETA, bind. rewrite (checkTimes_run _ _ _ _ _ Hnow).
    unfold Before.
    replace (begin <? now)%Z with false by (symmetry; apply Z.ltb_ge; lia).
    replace (end_ <? begin)%Z with false by (symmetry; apply Z.ltb_ge; lia).
    unfold ret, deref, Do, NewRequest, eta_PUT, eta_path in *. rewrite Hp.
    cbn [clients world sent delivered]. rewrite Hc, Hurl. cbn [nonnil].
    unfold ret. cbn [clients world sent delivered].
    destruct (RoundTrip w1 _) as [w2 [[resp|] [err|]]];
      cbn [fst snd]; unfold nonnil, ret, panic;
      try (exists []; reflexivity).
    destruct (decide (resp_StatusCode resp = 200)); exists []; reflexivity.
  - intros Htb Hte. unfold ETA_object.
    cbn [TripID EstimatedArrivalWindowBegin EstimatedArrivalWindowEnd].
    rewrite Marshal_supported.
    + reflexivity.
    + repeat apply map_Forall_insert_2; try assumption; try reflexivity.
      apply map_Forall_empty.
Qed.

(** ** The fetch of the structures *)

(** With a redirect URL cached, [getStructures] sends its GET, when the
    URL parses, and hands back what [Do] returned. *)
Lemma getStructures_cached (c : loc) (action : Z) (st : State W) (cl : Client)
    (w1 : W) (r : DoResult) :
  clients st !! c = Some cl →
  RedirectURL cl ≠ "" →
  url_parses (req_URL (structures_GET cl action)) = true →
  RoundTrip (world st) (structures_GET cl action) = (w1, r) →
  getStructures c action st
  = Ret r (mkState (clients st) w1 (sent st ++ [structures_GET cl action])
                   (delivered st)).
Proof.
  intros Hc Hurl Hparse Hrt. unfold getStructures, bind, deref. rewrite Hc.
  rewrite decide_False by exact Hurl.
  unfold Do, structures_GET, Header_Set, NewRequest in *.
  cbn [req_Method req_URL req_Header req_Body app] in *.
  rewrite Hparse. cbn [nonnil]. unfold ret.
  destruct (decide (action = Stream));
    cbn [req_Method req_URL req_Header req_Body app]; rewrite Hrt; reflexivity.
Qed.

(** Without one, the answer is looked into before the error is: when
    [Do] failed there is no response, and the read of [resp.Request]
    panics. Otherwise the scheme and host of the request URL are cached. *)
Lemma getStructures_fresh (c : loc) (action : Z) (st : State W) (cl : Client)
    (w1 : W) (r : DoResult) :
  clients st !! c = Some cl →
  RedirectURL cl = "" →
  url_parses (req_URL (first_GET cl)) = true →
  RoundTrip (world st) (first_GET cl) = (w1, r) →
  getStructures c action st
  = let st1 := mkState (clients st) w1 (sent st ++ [first_GET cl]) (delivered st) in
    match fst r with
    | None => Panic st1
    | Some resp =>
        match resp_Request_URL resp with
        | Some u =>
            Ret r (mkState (<[c := redirected cl (scheme_host u)]> (clients st))
                           w1 (sent st ++ [first_GET cl]) (delivered st))
        | None => Ret r st1
        end
    end.
Proof.
  intros Hc Hurl Hparse Hrt. unfold getStructures, bind, deref. rewrite Hc.
  rewrite decide_True by exact Hurl.
  unfold Do, first_GET, NewRequest in *. cbn [req_URL] in Hparse.
  rewrite Hparse. cbn [nonnil]. unfold ret. rewrite Hrt.
  destruct r as [[resp|] err]; cbn [fst snd nonnil]; [|reflexivity].
  unfold ret. destruct (resp_Request_URL resp) as [u|]; [|reflexivity].
  unfold set_RedirectURL, bind, deref, nonnil, ret.
  cbn [clients world sent delivered]. rewrite Hc. reflexivity.
Qed.

(** With a URL that does not parse, [getStructures] panics on the nil
    request, and nothing is sent. *)
Lemma getStructures_unparsable (c : loc) (action : Z) (st : State W) (cl : Client) :
  clients st !! c = Some cl →
  url_parses ((if decide (RedirectURL cl = "") then APIURL cl else RedirectURL cl)
              +:+ "/structures.json?auth=" +:+ Token cl) = false →
  getStructures c action st = Panic st.
Proof.
  intros Hc Hparse. unfold getStructures, bind, deref, NewRequest. rewrite Hc.
  destruct (decide (RedirectURL cl = "")); rewrite Hparse; reflexivity.
Qed.

(** The three failures of [Structures] once a redirect URL is cached:
    the transport, the read of the body, and a status that is not 200. *)
Lemma Structures_cached_failures (c : loc) (st : State W) (cl : Client)
    (w1 : W) (r : DoResult) :
  clients st !! c = Some cl →
  RedirectURL cl ≠ "" →
  url_parses (req_URL (structures_GET cl NoStream)) = true →
  RoundTrip (world st) (structures_GET cl NoStream) = (w1, r) →
  let st1 := mkState (clients st) w1 (sent st ++ [structures_GET cl NoStream])
                     (delivered st) in
  (∀ err, snd r = Some err →
     Structures c st = Ret (None, Some (mkAPIError "devices_error" err "" 0)) st1)
  ∧ (∀ resp err, r = (Some resp, None) → body_err (resp_Body resp) = Some err →
       Structures c st = Ret (None, Some (mkAPIError "body_read_error" err "" 0)) st1)
  ∧ (∀ resp, r = (Some resp, None) → body_err (resp_Body resp) = None →
       resp_StatusCode resp ≠ 200 →
       Structures c st
       = Ret (None, Some (target_after zero_APIError
                            (json_APIError (fst (ReadAll (resp_Body resp)))))) st1).
Proof.
  intros Hc Hurl Hparse Hrt st1. unfold Structures, bind.
  rewrite (getStructures_cached c NoStream st cl w1 r Hc Hurl Hparse Hrt). fold st1.
  repeat split.
  - intros err Herr. rewrite Herr. reflexivity.
  - intros resp err -> Hbody. cbn [fst snd nonnil]. unfold ret, ReadAll.
    rewrite Hbody. reflexivity.
  - intros resp -> Hbody Hstatus. cbn [fst snd nonnil]. unfold ret, ReadAll.
    rewrite Hbody. rewrite decide_False by exact Hstatus. reflexivity.
Qed.

(** The same failures on a client that has no redirect URL yet, when
    there is a response to look into. *)
Lemma Structures_fresh_failures (c : loc) (st : State W) (resp : Response)
    (err : option string) (st1 : State W) :
  getStructures c NoStream st = Ret (Some resp, err) st1 →
  (∀ e, err = Some e →
     Structures c st = Ret (None, Some (mkAPIError "devices_error" e "" 0)) st1)
  ∧ (∀ e, err = None → body_err (resp_Body resp) = Some e →
       Structures c st = Ret (None, Some (mkAPIError "body_read_error" e "" 0)) st1)
  ∧ (err = None → body_err (resp_Body resp) = None →
       resp_StatusCode resp ≠ 200 →
       Structures c st
       = Ret (None, Some (target_after zero_APIError
                            (json_APIError (fst (ReadAll (resp_Body resp)))))) st1).
Proof.
  intros Hget. unfold Structures, bind. rewrite Hget. repeat split.
  - intros e ->. reflexivity.
  - intros e -> Hbody. cbn [fst snd nonnil]. unfold ret, ReadAll.
    rewrite Hbody. reflexivity.
  - intros -> Hbody Hstatus. cbn [fst snd nonnil]. unfold ret, ReadAll.
    rewrite Hbody. rewrite decide_False by exact Hstatus. reflexivity.
Qed.

(** On a client without a redirect URL, a transport failure does not
    come back as [devices_error]: [Structures] panics. *)
Lemma Structures_fresh_transport_failure (c : loc) (st : State W) (cl : Client)
    (w1 : W) (err : option string) :
  clients st !! c = Some cl →
  RedirectURL cl = "" →
  url_parses (req_URL (first_GET cl)) = true →
  RoundTrip (world st) (first_GET cl) = (w1, (None, err)) →
  Structures c st
  = Panic (mkState (clients st) w1 (sent st ++ [first_GET cl]) (delivered st)).
Proof.
  intros Hc Hurl Hparse Hrt. unfold Structures, bind.
  rewrite (getStructures_fresh c NoStream st cl w1 _ Hc Hurl Hparse Hrt).
  reflexivity.
Qed.

Lemma associateClientToStructures_sound (c : loc) (structures : Structures_map)
    (st : State W) :
  map_Forall (fun _ value => is_Some value) structures →
  associateClientToStructures c structures st = Ret (associate c <$> structures) st.
Proof.
  intros H. unfold associateClientToStructures.
  rewrite decide_True by exact H. reflexivity.
Qed.

Lemma associateClientToStructures_nil (c : loc) (structures : Structures_map)
    (st : State W) (k : string) :
  structures !! k = Some None →
  associateClientToStructures c structures st = Panic st.
Proof.
  intros Hk. unfold associateClientToStructures.
  rewrite decide_False; [reflexivity|].
  intros Hall. destruct (Hall k None Hk) as [x Hx]. discriminate.
Qed.

(** After [associateClientToStructures] every entry points to [c], and
    is otherwise the entry that was decoded. *)
Lemma associate_back_reference (c : loc) (structures : Structures_map)
    (k : string) (x : option Structure) :
  map_Forall (fun _ value => is_Some value) structures →
  (associate c <$> structures) !! k = Some x →
  ∃ s0 s, structures !! k = Some (Some s0) ∧ x = Some s
          ∧ Structure_Client s = Some c
          ∧ StructureID s = StructureID s0
          ∧ Structure_Away s = Structure_Away s0.
Proof.
  intros Hall Hk. rewrite lookup_fmap in Hk.
  destruct (structures !! k) as [v|] eqn:Hv; [|discriminate].
  destruct (Hall k v Hv) as [s0 ->]. cbn in Hk. inversion Hk; subst x.
  exists s0. eexists. repeat split; reflexivity.
Qed.

(** On a 200 the failures of [json.Unmarshal] are not
    looked at. [setThermostat] and [setStructure], their URL parsing,
    return nil whatever the decoder makes of the body. [Structures]
    returns nil as its error and the map as the decoder left it: the
    empty map when the body is not JSON, and what was stored, each entry
    with its client, when the decoder reports a mismatch and no entry of
    the map is nil. *)
Lemma decode_failures_swallowed :
  (∀ (r : Resource) (body : Bytes) (st : State W) (l : loc) (c : Client) (w1 : W)
     (resp : Response),
     resource_Client r = Some l →
     clients st !! l = Some c →
     url_parses (resource_path r c) = true →
     RoundTrip (world st) (PUT (resource_path r c) body) = (w1, (Some resp, None)) →
     resp_StatusCode resp = 200 →
     set_resource r body st
     = Ret None (mkState (clients st) w1 (sent st ++ [PUT (resource_path r c) body])
                         (delivered st)))
  ∧ (∀ (c : loc) (st st1 : State W) (resp : Response) (msg : string),
       getStructures c NoStream st = Ret (Some resp, None) st1 →
       body_err (resp_Body resp) = None →
       resp_StatusCode resp = 200 →
       json_Structures (fst (ReadAll (resp_Body resp))) = SyntaxError msg →
       Structures c st = Ret (Some ∅, None) st1)
  ∧ (∀ (c : loc) (st st1 : State W) (resp : Response) (structures : Structures_map)
       (err : string),
       getStructures c NoStream st = Ret (Some resp, None) st1 →
       body_err (resp_Body resp) = None →
       resp_StatusCode resp = 200 →
       json_Structures (fst (ReadAll (resp_Body resp))) = Stored structures (Some err) →
       map_Forall (fun _ value => is_Some value) structures →
       Structures c st = Ret (Some (associate c <$> structures), None) st1).
Proof.
  split; [|split].
  - intros r body st l c w1 resp Hp Hc Hurl Hrt H200.
    rewrite set_resource_put_retry.
    destruct r;
      rewrite (put_retry_run _ _ _ body st l c w1 _ Hp Hc Hurl Hrt);
      cbn [fst snd]; cbv zeta;
      rewrite decide_False by lia; rewrite read_response_200 by exact H200;
      reflexivity.
  - intros c st st1 resp msg Hget Hbody H200 Hjson.
    unfold Structures, bind. rewrite Hget. cbn [fst snd nonnil]. unfold ret.
    unfold ReadAll in *. rewrite Hbody. cbn [fst] in Hjson.
    rewrite decide_True by exact H200. rewrite Hjson. cbn [target_after].
    rewrite associateClientToStructures_sound by apply map_Forall_empty.
    rewrite fmap_empty. reflexivity.
  - intros c st st1 resp structures err Hget Hbody H200 Hjson Hall.
    unfold Structures, bind. rewrite Hget. cbn [fst snd nonnil]. unfold ret.
    unfold ReadAll in *. rewrite Hbody. cbn [fst] in Hjson.
    rewrite decide_True by exact H200. rewrite Hjson. cbn [target_after].
    rewrite associateClientToStructures_sound by exact Hall. reflexivity.
Qed.

(** The other side of it: a map stored with a nil entry makes
    [Structures] panic on a 200, whether or not the decoder reported an
    error, and no map is returned. *)
Lemma Structures_nil_entry_panics (c : loc) (st st1 : State W) (resp : Response)
    (structures : Structures_map) (k : string) :
  getStructures c NoStream st = Ret (Some resp, None) st1 →
  body_err (resp_Body resp) = None →
  resp_StatusCode resp = 200 →
  target_after ∅ (json_Structures (fst (ReadAll (resp_Body resp)))) = structures →
  structures !! k = Some None →
  Structures c st = Panic st1.
Proof.
  intros Hget Hbody H200 Hjson Hk.
  unfold Structures, bind. rewrite Hget. cbn [fst snd nonnil]. unfold ret.
  unfold ReadAll in *. rewrite Hbody. cbn [fst] in Hjson.
  rewrite decide_True by exact H200. rewrite Hjson.
  rewrite (associateClientToStructures_nil c structures st1 k Hk). reflexivity.
Qed.

(** ** The event stream *)

(** One round of the watch loop on a line that carries no mapping. *)
Lemma watch_lines_skip (c : loc) (line : string) (lines : list string)
    (st : State W) :
  line_data line = None →
  watch_lines c (line :: lines) st = watch_lines c lines st.
Proof.
  unfold line_data. intros Hline. cbn [watch_lines]. unfold bind.
  destruct (decide (parseStreamData line = "")); [reflexivity|].
  rewrite Hline. reflexivity.
Qed.

(** One round on a line that carries a mapping without nil entries. *)
Lemma watch_lines_deliver (c : loc) (line : string) (lines : list string)
    (st : State W) (data : Structures_map) :
  line_data line = Some data →
  map_Forall (fun _ value => is_Some value) data →
  watch_lines c (line :: lines) st
  = watch_lines c lines
      (mkState (clients st) (world st) (sent st)
               (delivered st ++ [(Some (associate c <$> data), None)])).
Proof.
  unfold line_data. intros Hline Hall. cbn [watch_lines]. unfold bind.
  destruct (decide (parseStreamData line = "")); [discriminate|].
  rewrite Hline. rewrite associateClientToStructures_sound by exact Hall.
  reflexivity.
Qed.

Lemma body_deliveries_cons (c : loc) (line : string) (lines : list string) :
  body_deliveries c (line :: lines)
  = line_deliveries c line ++ body_deliveries c lines.
Proof. reflexivity. Qed.

Lemma watch_lines_sound (c : loc) (lines : list string) :
  ∀ st : State W,
    Forall line_sound lines →
    watch_lines c lines st
    = Ret tt (mkState (clients st) (world st) (sent st)
                      (delivered st ++ body_deliveries c lines)).
Proof.
  induction lines as [|line lines IH]; intros st Hall.
  - cbn. rewrite app_nil_r. destruct st; reflexivity.
  - inversion Hall as [|? ? Hline Hrest]; subst.
    rewrite body_deliveries_cons.
    unfold line_sound, line_deliveries in *.
    destruct (line_data line) as [data|] eqn:Hdata.
    + rewrite (watch_lines_deliver c line lines st data Hdata Hline).
      rewrite IH by exact Hrest. cbn [clients world sent delivered].
      rewrite <- app_assoc. reflexivity.
    + rewrite (watch_lines_skip c line lines st Hdata).
      rewrite IH by exact Hrest. reflexivity.
Qed.

Lemma body_deliveries_no_data (c : loc) (lines : list string) :
  Forall (fun line => parseStreamData line = "") lines →
  body_deliveries c lines = [] ∧ Forall line_sound lines.
Proof.
  induction 1 as [|line lines Hline _ [IH1 IH2]]; [split; [reflexivity|constructor]|].
  assert (Hdata : line_data line = None).
  { unfold line_data. rewrite decide_True by exact Hline. reflexivity. }
  split.
  - rewrite body_deliveries_cons, IH1. unfold line_deliveries.
    rewrite Hdata. reflexivity.
  - constructor; [|exact IH2]. unfold line_sound. rewrite Hdata. exact I.
Qed.

(** No delivery of a body carries an error. *)
Lemma body_deliveries_nil_error (c : loc) (lines : list string) (a : CallbackArgs) :
  a ∈ body_deliveries c lines → snd a = None ∧ is_Some (fst a).
Proof.
  unfold body_deliveries. rewrite list_elem_of_In, in_flat_map.
  intros (line & _ & Ha). unfold line_deliveries in Ha.
  destruct (line_data line); [|contradiction].
  destruct Ha as [<-|[]]. split; [reflexivity|eexists; reflexivity].
Qed.

(** C3. On a body whose lines are lines without data and one data line
    with a valid payload, whose mapping is not null and has a structure
    behind every entry, the watch loop returns after one invocation of
    the callback, with the decoded mapping and a nil error; the other
    lines leave no trace; and every entry of the mapping that the
    callback receives has its [Client] set to the client of the stream. *)
Theorem watch_one_data_line (c : loc) (resp : Response) (st : State W)
    (before after : list string) (line value : string) (ev : StructuresEvent)
    (data : Structures_map) :
  body_lines (resp_Body resp) = before ++ line :: after →
  Forall (fun l => parseStreamData l = "") before →
  Forall (fun l => parseStreamData l = "") after →
  parseStreamData line = value →
  value ≠ "" →
  json_StructuresEvent value = Stored ev None →
  Data ev = Some data →
  map_Forall (fun _ entry => is_Some entry) data →
  watchStructuresStream c resp st
  = Ret tt (mkState (clients st) (world st) (sent st)
                    (delivered st ++ [(Some (associate c <$> data), None)]))
  ∧ ∀ k x, (associate c <$> data) !! k = Some x →
      ∃ s0 s, data !! k = Some (Some s0) ∧ x = Some s
              ∧ Structure_Client s = Some c
              ∧ StructureID s = StructureID s0
              ∧ Structure_Away s = Structure_Away s0.
Proof.
  intros Hlines Hbefore Hafter Hvalue Hne Hjson Hdata Hall.
  destruct (body_deliveries_no_data c before Hbefore) as [Hb1 Hb2].
  destruct (body_deliveries_no_data c after Hafter) as [Ha1 Ha2].
  assert (Hline : line_data line = Some data).
  { unfold line_data. cbv zeta. rewrite Hvalue.
    rewrite decide_False by exact Hne. rewrite Hjson. exact Hdata. }
  split.
  - unfold watchStructuresStream. rewrite Hlines.
    rewrite watch_lines_sound.
    + unfold body_deliveries in *. rewrite flat_map_app. cbn [flat_map].
      rewrite Hb1, Ha1. unfold line_deliveries. rewrite Hline. reflexivity.
    + apply Forall_app. split; [exact Hb2|]. constructor; [|exact Ha2].
      unfold line_sound. rewrite Hline. exact Hall.
  - intros k x. apply associate_back_reference. exact Hall.
Qed.

(** C10, as the code has it. A data line whose payload is not JSON, or
    decodes to an event without a mapping, changes nothing: the callback
    is not invoked, and the watch loop goes on with the lines that follow
    exactly as if the line had not been there. A payload for which the
    decoder reports an error after it has stored a mapping, no entry of
    it null, is not skipped: the mapping is delivered once, with a nil
    error, and the watch loop goes on with the lines that follow. *)
Theorem watch_malformed_line_skipped (c : loc) (line value : string)
    (lines : list string) (st : State W) :
  parseStreamData line = value →
  value ≠ "" →
  ((∃ msg, json_StructuresEvent value = SyntaxError msg)
   ∨ (∃ ev err, json_StructuresEvent value = Stored ev err ∧ Data ev = None) →
   line_deliveries c line = []
   ∧ watch_lines c (line :: lines) st = watch_lines c lines st)
  ∧ (∀ ev err data,
       json_StructuresEvent value = Stored ev (Some err) →
       Data ev = Some data →
       map_Forall (fun _ entry => is_Some entry) data →
       line_deliveries c line = [(Some (associate c <$> data), None)]
       ∧ watch_lines c (line :: lines) st
         = watch_lines c lines
             (mkState (clients st) (world st) (sent st)
                      (delivered st ++ [(Some (associate c <$> data), None)]))).
Proof.
  intros Hvalue Hne. split.
  - intros Hbad.
    assert (Hline : line_data line = None).
    { unfold line_data. cbv zeta. rewrite Hvalue.
      rewrite decide_False by exact Hne.
      destruct Hbad as [[msg ->]|(ev & err & -> & Hdata)];
        [reflexivity|exact Hdata]. }
    split.
    + unfold line_deliveries. rewrite Hline. reflexivity.
    + exact (watch_lines_skip c line lines st Hline).
  - intros ev err data Hjson Hdata Hall.
    assert (Hline : line_data line = Some data).
    { unfold line_data. cbv zeta. rewrite Hvalue.
      rewrite decide_False by exact Hne. rewrite Hjson. exact Hdata. }
    split.
    + unfold line_deliveries. rewrite Hline. reflexivity.
    + exact (watch_lines_deliver c line lines st data Hline Hall).
Qed.

(** X21. A payload that is JSON and for which the decoder reports a
    mismatch only after it has stored a mapping is delivered like any
    other event, and the mismatch is not reported. *)
Lemma watch_mismatch_line_delivered (c : loc) (line value : string)
    (lines : list string) (st : State W) (ev : StructuresEvent) (err : string)
    (data : Structures_map) :
  parseStreamData line = value →
  value ≠ "" →
  json_StructuresEvent value = Stored ev (Some err) →
  Data ev = Some data →
  map_Forall (fun _ entry => is_Some entry) data →
  watch_lines c (line :: lines) st
  = watch_lines c lines
      (mkState (clients st) (world st) (sent st)
               (delivered st ++ [(Some (associate c <$> data), None)])).
Proof.
  intros Hvalue Hne Hjson Hdata Hall.
  apply watch_lines_deliver; [|exact Hall].
  unfold line_data. cbv zeta. rewrite Hvalue. rewrite decide_False by exact Hne.
  rewrite Hjson. exact Hdata.
Qed.

(** One round of the loop of [StructuresStream] once a redirect URL is
    cached and the URL of the stream parses: a connection attempt, and
    then either the delivery of its failure or the deliveries of the
    body, until its read error. *)
Lemma streamStructures_cached (c : loc) (st : State W) (cl : Client) (w1 : W)
    (r : DoResult) :
  clients st !! c = Some cl →
  RedirectURL cl ≠ "" →
  url_parses (req_URL (structures_GET cl Stream)) = true →
  RoundTrip (world st) (structures_GET cl Stream) = (w1, r) →
  attempt_sound r →
  streamStructures c st
  = Ret tt (mkState (clients st) w1 (sent st ++ [structures_GET cl Stream])
                    (delivered st ++ attempt_deliveries c r)).
Proof.
  intros Hc Hurl Hparse Hrt Hsound. unfold streamStructures, bind.
  rewrite (getStructures_cached c Stream st cl w1 r Hc Hurl Hparse Hrt).
  unfold attempt_sound, attempt_deliveries in *.
  destruct r as [oresp [err|]]; cbn [fst snd] in *; [reflexivity|].
  destruct oresp as [resp|]; [|contradiction]. cbn [nonnil]. unfold ret.
  unfold watchStructuresStream. rewrite watch_lines_sound by exact Hsound.
  reflexivity.
Qed.

Lemma stream_loop_run (c : loc) (cl : Client) (n : nat) :
  ∀ st : State W,
    clients st !! c = Some cl →
    RedirectURL cl ≠ "" →
    url_parses (req_URL (structures_GET cl Stream)) = true →
    Forall attempt_sound (attempts n (world st) (structures_GET cl Stream)) →
    stream_loop n c st
    = Ret tt (mkState (clients st)
                      (world_after n (world st) (structures_GET cl Stream))
                      (sent st ++ replicate n (structures_GET cl Stream))
                      (delivered st
                       ++ flat_map (attempt_deliveries c)
                            (attempts n (world st) (structures_GET cl Stream)))).
Proof.
  induction n as [|n IH]; intros st Hc Hurl Hparse Hall.
  - cbn. rewrite !app_nil_r. destruct st; reflexivity.
  - cbn [stream_loop attempts world_after replicate] in *. unfold bind.
    destruct (RoundTrip (world st) (structures_GET cl Stream)) as [w1 r] eqn:Hrt.
    inversion Hall as [|? ? Hr Hrest]; subst.
    rewrite (streamStructures_cached c st cl w1 r Hc Hurl Hparse Hrt Hr).
    rewrite IH; cbn [clients world sent delivered fst]; try assumption.
    cbn [flat_map]. rewrite <- !app_assoc. reflexivity.
Qed.

(** The errors that the callback is given for a list of attempts are the
    errors of the attempts that failed, one for one. *)
Lemma delivered_errors (c : loc) (results : list DoResult) :
  omap snd (flat_map (attempt_deliveries c) results) = omap snd results.
Proof.
  induction results as [|r results IH]; [reflexivity|].
  cbn [flat_map]. rewrite omap_app, IH. cbn [omap list_omap].
  unfold attempt_deliveries.
  destruct r as [oresp [err|]]; cbn [fst snd]; [reflexivity|].
  assert (Hnone : ∀ lines, omap snd (body_deliveries c lines) = []).
  { intros lines. induction lines as [|line lines IHl]; [reflexivity|].
    rewrite body_deliveries_cons, omap_app, IHl. unfold line_deliveries.
    destruct (line_data line); reflexivity. }
  destruct oresp as [resp|]; [rewrite Hnone|]; reflexivity.
Qed.

(** C2, as the code has it. As long as no round panics, which is when
    the client has its redirect URL, the URL of the stream parses, every
    connection attempt gives an error or a response, and no mapping of
    the stream has a null entry: [StructuresStream] goes through as many
    rounds of its loop as one cares to observe, each round opening the
    stream again right after the round before. A read error ends the
    watch loop of a round with nothing said to the callback. And every
    connection attempt that fails, the first one or a later one, is
    delivered to the callback as [(nil, err)]: the errors delivered are
    the errors of the failed attempts, in order. *)
Theorem StructuresStream_reconnects (setRedirectURL : loc → M W unit) (n : nat)
    (c : loc) (cl : Client) (st0 st : State W) :
  setRedirectURL c st0 = Ret tt st →
  clients st !! c = Some cl →
  RedirectURL cl ≠ "" →
  let req := structures_GET cl Stream in
  url_parses (req_URL req) = true →
  let results := attempts n (world st) req in
  Forall attempt_sound results →
  ∃ st',
    StructuresStream setRedirectURL n c st0 = Ret tt st'
    ∧ sent st' = sent st ++ replicate n req
    ∧ delivered st' = delivered st ++ flat_map (attempt_deliveries c) results
    ∧ omap snd (flat_map (attempt_deliveries c) results) = omap snd results
    ∧ (∀ i r err, results !! i = Some r → snd r = Some err →
         (None, Some err) ∈ delivered st')
    ∧ (∀ r resp a, r ∈ results → r = (Some resp, None) →
         a ∈ attempt_deliveries c r → snd a = None).
Proof.
  intros Hset Hc Hurl req Hparse results Hall.
  eexists. unfold StructuresStream, bind. rewrite Hset.
  rewrite (stream_loop_run c cl n st Hc Hurl Hparse Hall).
  cbn [sent delivered]. fold req. fold results.
  split; [reflexivity|]. split; [reflexivity|]. split; [reflexivity|].
  split; [apply delivered_errors|]. split.
  - intros i r err Hi Herr. apply elem_of_app. right.
    apply list_elem_of_In, in_flat_map. exists r. split.
    + apply list_elem_of_In. eapply list_elem_of_lookup_2. exact Hi.
    + unfold attempt_deliveries. rewrite Herr. left. reflexivity.
  - intros r resp a _ -> Ha. unfold attempt_deliveries in Ha. cbn [fst snd] in Ha.
    apply (body_deliveries_nil_error c _ a Ha).
Qed.

End Properties.

(** * The properties on the scripted environment *)

(** C4, where the code departs from it. The check uses [Before], which
    is strict, so an end equal to the begin, and a begin equal to the
    current time, are not refused: with the clock at 1000, the ETA from
    2000 to 2000 and the ETA from 1000 to 1500 are both sent, and the
    answer of the server is the result. *)
Theorem SetETA_equal_times_are_sent :
  let st := sample_state sample_client [(Some (ok_response ""), None)] in
  SetETA sample_structure "trip" 2000 2000 st
  = Ret None
      (mkState (clients st) (mkScript [] 1000)
         [eta_PUT sample_client sample_structure
            (JSONText {[ "trip_id" := JString "trip";
                         "estimated_arrival_window_begin" := JTime 2000;
                         "estimated_arrival_window_end" := JTime 2000 ]})] [])
  ∧ SetETA sample_structure "trip" 1000 1500 st
    = Ret None
        (mkState (clients st) (mkScript [] 1000)
           [eta_PUT sample_client sample_structure
              (JSONText {[ "trip_id" := JString "trip";
                           "estimated_arrival_window_begin" := JTime 1000;
                           "estimated_arrival_window_end" := JTime 1500 ]})] []).
Proof. split; vm_compute; reflexivity. Qed.

(** C5, where the code departs from it. On a client that has no
    redirect URL yet, a transport failure makes [Structures] panic, after
    the GET and before any error is built; on a client that has one, the
    same failure comes back as [devices_error] with the text of the
    error. *)
Theorem Structures_transport_failure_panics :
  let failure : DoResult := (None, Some "dial tcp: connection refused") in
  Structures 1%positive (sample_state fresh_client [failure])
  = Panic (mkState {[ 1%positive := fresh_client ]} (mkScript [] 1000)
                   [first_GET fresh_client] [])
  ∧ Structures 1%positive (sample_state sample_client [failure])
    = Ret (None, Some (mkAPIError "devices_error" "dial tcp: connection refused" "" 0))
          (mkState {[ 1%positive := sample_client ]} (mkScript [] 1000)
                   [structures_GET sample_client NoStream] []).
Proof.
  intros failure. split.
  - apply (Structures_fresh_transport_failure 1%positive
             (sample_state fresh_client [failure]) fresh_client
             (mkScript [] 1000) (Some "dial tcp: connection refused"));
      reflexivity.
  - vm_compute. reflexivity.
Qed.

(** The claim C9 fails for an infinite bound: +Inf is not below 20, so
    the pair passes the check, and the PUT goes out with an empty body,
    since the object has no JSON form. *)
Lemma SetTargetTempHighLowC_infinite_high :
  f32_le f32_20 f32_pinf = true
  ∧ f32_lt f32_pinf f32_20 = false
  ∧ sent (final (SetTargetTempHighLowC sample_thermostat f32_pinf f32_20
                   (sample_state sample_client [(Some (ok_response ""), None)])))
    = [thermostat_PUT sample_client sample_thermostat NoBytes].
Proof. repeat split; vm_compute; reflexivity. Qed.

(** C6, where the code departs from it. A 200 whose body has a null
    entry beside a value that does not decode: the decoder reports its
    error, which is dropped, and [Structures] panics on the null entry
    instead of returning the map with a nil error. A 200 whose body only
    has a value that does not decode comes back as the map, with a nil
    error. *)
Theorem Structures_decode_failure_null_entry_panics :
  let fetched := fun body : string =>
    sample_state sample_client [(Some (ok_response body), None)] in
  let after :=
    mkState {[ 1%positive := sample_client ]} (mkScript [] 1000)
            [structures_GET sample_client NoStream] [] in
  unmarshal_err (json_Structures (JSONCodec := null_mismatch_codec) null_mismatch_body)
  = Some "json: cannot unmarshal number into Go value"
  ∧ resp_StatusCode (ok_response null_mismatch_body) = 200
  ∧ Structures (JC := null_mismatch_codec) 1%positive (fetched null_mismatch_body)
    = Panic after
  ∧ unmarshal_err (json_Structures (JSONCodec := null_mismatch_codec) mismatch_body)
    = Some "json: cannot unmarshal number into Go struct field"
  ∧ Structures (JC := null_mismatch_codec) 1%positive (fetched mismatch_body)
    = Ret (Some {[ "structure1" := Some (mkStructure "" "home" (Some 1%positive)) ]},
           None) after.
Proof.
  intros fetched after.
  split; [reflexivity|]. split; [reflexivity|]. split; [|split; [reflexivity|]].
  - apply (Structures_nil_entry_panics (JC := null_mismatch_codec)
             (D := sample_declarations) 1%positive
             (fetched null_mismatch_body) after (ok_response null_mismatch_body)
             {[ "structure1" := None;
                "structure2" := Some (mkStructure "" "" None) ]} "structure1");
      vm_compute; reflexivity.
  - vm_compute. reflexivity.
Qed.

(** The claim C10 fails for a payload that is JSON of another shape: the
    decoder reports an error, but only after it has stored a mapping,
    and the callback is invoked with the mapping. *)
Lemma watch_decode_error_is_delivered :
  let st := sample_state sample_client [] in
  let line := "data:" +:+ mismatch_payload in
  unmarshal_err (json_StructuresEvent (JSONCodec := mismatch_codec)
                   (parseStreamData line))
  = Some "json: cannot unmarshal number into Go value"
  ∧ delivered (final (watchStructuresStream (JC := mismatch_codec) 1%positive
                        (stream_response [line]) st))
    = [(Some {[ "structure1" := Some (mkStructure "" "" (Some 1%positive)) ]},
        None)].
Proof. split; vm_compute; reflexivity. Qed.

(** The claim C2 fails for a reconnect: the first attempt connects to a
    stream that ends at once, the second attempt fails, and the failure
    of the second attempt is delivered to the callback. *)
Lemma reconnect_failure_is_delivered :
  let st := sample_state sample_client
              [(Some (stream_response []), None); (None, Some "connection reset")] in
  attempts 2 (world st) (structures_GET sample_client Stream)
  = [(Some (stream_response []), None); (None, Some "connection reset")]
  ∧ delivered (final (StructuresStream (fun _ => ret tt) 2 1%positive st))
    = [(None, Some "connection reset")].
Proof. split; vm_compute; reflexivity. Qed.

(** ** The theorems at concrete inputs *)

Lemma PUT_307_retried_once_witness :
  let st := sample_state sample_client
              [(Some redirect_response, None); (Some (ok_response ""), None)] in
  let body := JSONText {[ "target_temperature_f" := JInt 78 ]} in
  let c' := redirected sample_client "https://firebase-apiserver02.nest.com" in
  set_resource (AThermostat sample_thermostat) body st
  = Ret None
      (mkState (<[1%positive := c']> (clients st)) (mkScript [] 1000)
         (sent st ++ [PUT (thermostat_path sample_thermostat sample_client) body;
                      PUT (thermostat_path sample_thermostat c') body])
         (delivered st)).
Proof.
  intros st body c'.
  exact (proj1 (proj2 (proj2 (proj2
           (PUT_307_retried_once (AThermostat sample_thermostat) body st
              1%positive sample_client
              (mkScript [(Some (ok_response ""), None)] 1000) (mkScript [] 1000)
              redirect_response (mkURL "https" "firebase-apiserver02.nest.com")
              (Some (ok_response ""), None)
              eq_refl eq_refl eq_refl eq_refl eq_refl eq_refl eq_refl eq_refl))))
           (ok_response "") eq_refl eq_refl).
Defined.

(** The lines of a stream: a comment, the data line of a structures
    event and an event name. *)
Lemma sample_data_line :
  line_data ("data:" +:+ event_payload) = Some sample_structures.
Proof. vm_compute. reflexivity. Qed.

Lemma sample_structures_sound :
  map_Forall (fun (_ : string) (entry : option Structure) => is_Some entry)
             sample_structures.
Proof. apply map_Forall_singleton. eexists. reflexivity. Qed.

Lemma sample_stream_sound :
  let st := sample_state sample_client
              [(Some (stream_response
                        [": keep-alive" +:+ newline; "data:" +:+ event_payload]),
                None);
               (None, Some "connection reset")] in
  Forall attempt_sound (attempts 3 (world st) (structures_GET sample_client Stream)).
Proof.
  intros st. cbn [attempts st sample_state world RoundTrip Script_Runtime
                  script_results script_clock].
  repeat constructor.
  unfold line_sound. rewrite sample_data_line. exact sample_structures_sound.
Qed.

Lemma StructuresStream_reconnects_witness :
  let st := sample_state sample_client
              [(Some (stream_response
                        [": keep-alive" +:+ newline; "data:" +:+ event_payload]),
                None);
               (None, Some "connection reset")] in
  ∃ st', StructuresStream (fun _ => ret tt) 3 1%positive st = Ret tt st'
         ∧ sent st' = replicate 3 (structures_GET sample_client Stream)
         ∧ omap snd (delivered st') = ["connection reset"; "connection refused"].
Proof.
  intros st.
  destruct (StructuresStream_reconnects (fun _ => ret tt) 3 1%positive
              sample_client st st eq_refl eq_refl
              ltac:(discriminate) eq_refl sample_stream_sound)
    as (st' & Hrun & Hsent & Hdelivered & Herrors & _).
  exists st'. split; [exact Hrun|]. split; [exact Hsent|].
  rewrite Hdelivered. cbn [delivered st sample_state app]. rewrite Herrors.
  reflexivity.
Defined.

Lemma watch_one_data_line_witness :
  let lines := [": keep-alive" +:+ newline; "data:" +:+ event_payload;
                "event: put" +:+ newline] in
  let st := sample_state sample_client [] in
  watchStructuresStream 1%positive (stream_response lines) st
  = Ret tt (mkState (clients st) (world st) (sent st)
              (delivered st
               ++ [(Some (associate 1%positive <$> sample_structures), None)]))
  ∧ ∀ k x, (associate 1%positive <$> sample_structures) !! k = Some x →
      ∃ s0 s, sample_structures !! k = Some (Some s0) ∧ x = Some s
              ∧ Structure_Client s = Some 1%positive
              ∧ StructureID s = StructureID s0
              ∧ Structure_Away s = Structure_Away s0.
Proof.
  intros lines st.
  apply (watch_one_data_line 1%positive (stream_response lines) st
           [": keep-alive" +:+ newline] ["event: put" +:+ newline]
           ("data:" +:+ event_payload) event_payload
           (mkStructuresEvent (Some sample_structures)) sample_structures).
  - reflexivity.
  - repeat constructor.
  - repeat constructor.
  - reflexivity.
  - discriminate.
  - reflexivity.
  - reflexivity.
  - exact sample_structures_sound.
Defined.

Lemma watch_malformed_line_skipped_witness :
  let st := sample_state sample_client [] in
  let rest := ["data:" +:+ event_payload] in
  (line_deliveries 1%positive ("data:" +:+ broken_payload) = []
   ∧ watch_lines 1%positive (("data:" +:+ broken_payload) :: rest) st
     = watch_lines 1%positive rest st)
  ∧ (line_deliveries 1%positive ("data:" +:+ null_payload) = []
     ∧ watch_lines 1%positive (("data:" +:+ null_payload) :: rest) st
       = watch_lines 1%positive rest st)
  ∧ (let blank : Structures_map :=
       {[ "structure1" := Some (mkStructure "" "" None) ]} in
     line_deliveries (JC := mismatch_codec) 1%positive ("data:" +:+ mismatch_payload)
     = [(Some (associate 1%positive <$> blank), None)]
     ∧ watch_lines (JC := mismatch_codec) 1%positive
         (("data:" +:+ mismatch_payload) :: rest) st
       = watch_lines (JC := mismatch_codec) 1%positive rest
           (mkState (clients st) (world st) (sent st)
              (delivered st ++ [(Some (associate 1%positive <$> blank), None)]))).
Proof.
  intros st rest. split; [|split].
  - apply (proj1 (watch_malformed_line_skipped (JC := sample_codec)
                    (D := sample_declarations) 1%positive
                    ("data:" +:+ broken_payload) broken_payload rest st
                    eq_refl ltac:(discriminate))).
    left. eexists. reflexivity.
  - apply (proj1 (watch_malformed_line_skipped (JC := sample_codec)
                    (D := sample_declarations) 1%positive
                    ("data:" +:+ null_payload) null_payload rest st
                    eq_refl ltac:(discriminate))).
    right. eexists. eexists. split; reflexivity.
  - intros blank.
    apply (proj2 (watch_malformed_line_skipped (JC := mismatch_codec)
                    (D := sample_declarations) 1%positive
                    ("data:" +:+ mismatch_payload) mismatch_payload rest st
                    eq_refl ltac:(discriminate))
             (mkStructuresEvent (Some blank))
             "json: cannot unmarshal number into Go value" blank
             eq_refl eq_refl).
    apply map_Forall_singleton. eexists. reflexivity.
Defined.

Lemma decode_failures_swallowed_witness :
  (let st := sample_state sample_client [(Some (ok_response "<html>"), None)] in
   let body := JSONText {[ "away" := JString "away" ]} in
   unmarshal_err (json_Structure "<html>") ≠ None
   ∧ set_resource (AStructure sample_structure) body st
     = Ret None
         (mkState (clients st) (mkScript [] 1000)
            (sent st ++ [PUT (structure_path sample_structure sample_client) body])
            (delivered st)))
  ∧ (let st := sample_state sample_client [(Some (ok_response "<html>"), None)] in
     Structures 1%positive st
     = Ret (Some ∅, None)
           (mkState (clients st) (mkScript [] 1000)
                    [structures_GET sample_client NoStream] []))
  ∧ (let st := sample_state sample_client
                 [(Some (ok_response mismatch_body), None)] in
     Structures 1%positive st
     = Ret (Some (associate 1%positive <$> sample_structures), None)
           (mkState (clients st) (mkScript [] 1000)
                    [structures_GET sample_client NoStream] [])).
Proof.
  destruct decode_failures_swallowed as (Hput & Hsyntax & Hmismatch).
  split; [|split].
  - intros st body. split; [discriminate|].
    apply (Hput (AStructure sample_structure) body st 1%positive sample_client
             (mkScript [] 1000) (ok_response "<html>")); reflexivity.
  - intros st.
    apply (Hsyntax 1%positive st _ (ok_response "<html>")
             "unexpected end of JSON input"); reflexivity.
  - intros st.
    apply (Hmismatch 1%positive st _ (ok_response mismatch_body) sample_structures
             "json: cannot unmarshal number into Go struct field");
      try reflexivity.
    exact sample_structures_sound.
Defined.

Lemma SetHvacMode_modes_witness :
  let st := sample_state sample_client [(Some (ok_response ""), None)] in
  (∃ e, SetHvacMode sample_thermostat 99 st = Ret (Some e) st
        ∧ Error e = "api_error")
  ∧ SetHvacMode sample_thermostat Heat st
    = setThermostat sample_thermostat
        (JSONText {[ "hvac_mode" := JString "heat" ]}) st
  ∧ sends_first st
      (thermostat_PUT sample_client sample_thermostat
         (JSONText {[ "hvac_mode" := JString "heat" ]}))
      (SetHvacMode sample_thermostat Heat st).
Proof.
  intros st.
  split; [|split].
  - apply (proj1 (SetHvacMode_modes sample_thermostat 99 st)).
    rewrite !not_elem_of_cons. repeat split; try discriminate.
    apply not_elem_of_nil.
  - apply (proj2 (SetHvacMode_modes sample_thermostat Heat st) "heat").
    apply list_elem_of_further, list_elem_of_here.
  - refine (proj2 (proj2 (SetHvacMode_modes sample_thermostat Heat st) "heat" _)
              1%positive sample_client eq_refl eq_refl eq_refl).
    apply list_elem_of_further, list_elem_of_here.
Defined.

Lemma SetTargetTemp_range_witness :
  let st := sample_state sample_client [(Some (ok_response ""), None)] in
  (∃ e, SetTargetTempC sample_thermostat f32_pinf st = Ret (Some e) st
        ∧ Error e = "api_error")
  ∧ sends_first st
      (thermostat_PUT sample_client sample_thermostat
         (JSONText {[ "target_temperature_c" := JFloat32 f32_21_5 ]}))
      (SetTargetTempC sample_thermostat f32_21_5 st)
  ∧ (∃ e, SetTargetTempF sample_thermostat 91 st = Ret (Some e) st
          ∧ Error e = "api_error")
  ∧ sends_first st
      (thermostat_PUT sample_client sample_thermostat
         (JSONText {[ "target_temperature_f" := JInt 78 ]}))
      (SetTargetTempF sample_thermostat 78 st).
Proof.
  intros st.
  destruct (SetTargetTemp_range sample_thermostat st) as (HC1 & HC2 & HF1 & HF2).
  split; [|split; [|split]].
  - apply HC1. right. reflexivity.
  - refine (proj2 (HC2 f32_21_5 _) 1%positive sample_client eq_refl eq_refl
              eq_refl).
    split; reflexivity.
  - apply HF1. lia.
  - refine (proj2 (HF2 78 _) 1%positive sample_client eq_refl eq_refl eq_refl).
    lia.
Defined.

Lemma SetTargetTempHighLow_bounds_witness :
  let st := sample_state sample_client [(Some (ok_response ""), None)] in
  (∃ e, SetTargetTempHighLowC sample_thermostat f32_20 f32_21_5 st = Ret (Some e) st
        ∧ Error e = "api_error")
  ∧ (∃ e, SetTargetTempHighLowF sample_thermostat 65 75 st = Ret (Some e) st
          ∧ Error e = "api_error")
  ∧ sends_first st
      (thermostat_PUT sample_client sample_thermostat
         (JSONText {[ "target_temperature_high_f" := JInt 75;
                      "target_temperature_low_f" := JInt 65 ]}))
      (SetTargetTempHighLowF sample_thermostat 75 65 st)
  ∧ sends_first st
      (thermostat_PUT sample_client sample_thermostat
         (JSONText {[ "target_temperature_high_c" := JFloat32 f32_21_5;
                      "target_temperature_low_c" := JFloat32 f32_20 ]}))
      (SetTargetTempHighLowC sample_thermostat f32_21_5 f32_20 st)
  ∧ sends_first st
      (thermostat_PUT sample_client sample_thermostat NoBytes)
      (SetTargetTempHighLowC sample_thermostat f32_pinf f32_20 st).
Proof.
  intros st.
  destruct (SetTargetTempHighLow_bounds sample_thermostat st)
    as (HC1 & HF1 & HF2 & HC2).
  split; [|split; [|split; [|split]]].
  - apply HC1. reflexivity.
  - apply HF1. lia.
  - refine (proj2 (HF2 75 65 _) 1%positive sample_client eq_refl eq_refl eq_refl).
    lia.
  - exact (proj2 (HC2 f32_21_5 f32_20 eq_refl) 1%positive sample_client
             eq_refl eq_refl eq_refl).
  - exact (proj2 (HC2 f32_pinf f32_20 eq_refl) 1%positive sample_client
             eq_refl eq_refl eq_refl).
Defined.

(** ** Scenarios *)

(** [SetTargetTempF(78)] behind a server that answers 200: nil. *)
Example SetTargetTempF_78 :
  SetTargetTempF sample_thermostat 78
    (sample_state sample_client [(Some (ok_response structures_body), None)])
  = Ret None
      (mkState {[ 1%positive := sample_client ]} (mkScript [] 1000)
         [thermostat_PUT sample_client sample_thermostat
            (JSONText {[ "target_temperature_f" := JInt 78 ]})] []).
Proof. vm_compute. reflexivity. Qed.

(** [SetHvacMode(99)]: an [api_error] that names the modes, nothing sent. *)
Example SetHvacMode_99 :
  SetHvacMode sample_thermostat 99 (sample_state sample_client [])
  = Ret (Some (mkAPIError "api_error"
                 "Invalid HvacMode requested - must be cool, heat, heat-cool or off"
                 "" 0))
        (sample_state sample_client []).
Proof. reflexivity. Qed.

(** A token that ends in a newline: the URL does not parse, the request
    is nil, and the setter, the fetch and the ETA panic with nothing
    sent. *)
Example unparsable_token_panics :
  let c := mkClient "https://developer-api.nest.com"
                    "https://firebase-apiserver01.nest.com" ("c.token" +:+ newline) in
  let st := sample_state c [(Some (ok_response ""), None)] in
  SetTargetTempF sample_thermostat 78 st = Panic st
  ∧ Structures 1%positive st = Panic st
  ∧ SetETA sample_structure "trip" 2000 3000 st = Panic st.
Proof. repeat split; vm_compute; reflexivity. Qed.

(** The stream sends the data line of [structure1]: the callback
    receives the structure, away mode [home], with its client. *)
Example stream_structure1 :
  delivered (final (streamStructures 1%positive
    (sample_state sample_client
       [(Some (stream_response ["data:" +:+ event_payload]), None)])))
  = [(Some {[ "structure1" := Some (mkStructure "" "home" (Some 1%positive)) ]},
      None)].
Proof. vm_compute. reflexivity. Qed.

(** The first fetch of a fresh client caches the scheme and host of the
    request URL of the answer. *)
Example Structures_primes_redirect :
  clients (final (Structures 1%positive
    (sample_state fresh_client [(Some (ok_response structures_body), None)])))
  = {[ 1%positive := redirected fresh_client "https://firebase-apiserver01.nest.com" ]}.
Proof. vm_compute. reflexivity. Qed.

(** * More of the code *)

Section Setters.

Context {W : Type} {RT : Runtime W} {JC : JSONCodec} {D : Declarations}.

Lemma away_modes_ne : Home ≠ Away ∧ Home ≠ AutoAway ∧ Away ≠ AutoAway.
Proof.
  pose proof away_modes_distinct as Hd.
  rewrite !NoDup_cons, !not_elem_of_cons in Hd.
  intuition congruence.
Qed.

(** X1. [SetAway] with a mode that is none of [Home], [Away] and
    [AutoAway] returns an [api_error] and sends nothing; for each of the
    three it is the PUT of the object that maps [away] to the string of
    the mode, sent to the URL of the structure when that URL parses. *)
Theorem SetAway_modes (s : Structure) (mode : Z) (st : State W) :
  (mode ∉ [Home; Away; AutoAway] →
     ∃ e, SetAway s mode st = Ret (Some e) st ∧ Error e = "api_error")
  ∧ (∀ lit,
       (mode, lit) ∈ [(Home, "home"); (Away, "away"); (AutoAway, "auto-away")] →
       let body := JSONText {[ "away" := JString lit ]} in
       SetAway s mode st = setStructure s body st
       ∧ ∀ l c, Structure_Client s = Some l → clients st !! l = Some c →
           url_parses (structure_path s c) = true →
           sends_first st (structure_PUT c s body) (SetAway s mode st)).
Proof.
  destruct away_modes_ne as (H1 & H2 & H3).
  split.
  - intros Hmode. rewrite !not_elem_of_cons in Hmode.
    destruct Hmode as (? & ? & ? & _).
    eexists. unfold SetAway. rewrite !decide_False by assumption.
    split; reflexivity.
  - intros lit Hin body.
    assert (Heq : SetAway s mode st = setStructure s body st).
    { rewrite !elem_of_cons, elem_of_nil in Hin. unfold SetAway, body.
      destruct Hin as [Hin|[Hin|[Hin|[]]]]; inversion Hin; subst mode lit.
      - rewrite decide_True by reflexivity.
        rewrite Marshal_singleton by reflexivity. reflexivity.
      - rewrite decide_False by congruence. rewrite decide_True by reflexivity.
        rewrite Marshal_singleton by reflexivity. reflexivity.
      - rewrite !decide_False by congruence. rewrite decide_True by reflexivity.
        rewrite Marshal_singleton by reflexivity. reflexivity. }
    split; [exact Heq|].
    intros l c Hp Hc Hurl. rewrite Heq.
    exact (set_resource_first_request (AStructure s) body st l c Hp Hc Hurl).
Qed.

(** X2. [SetFanTimerActive] has no check of its own: for either setting
    it is the PUT of [{"fan_timer_active": setting}], and with a client
    behind the thermostat and a URL that parses that PUT is the first
    request. *)
Theorem SetFanTimerActive_sends (t : Thermostat) (setting : bool) (st : State W)
    (l : loc) (c : Client) :
  Thermostat_Client t = Some l →
  clients st !! l = Some c →
  url_parses (thermostat_path t c) = true →
  let body := JSONText {[ "fan_timer_active" := JBool setting ]} in
  SetFanTimerActive t setting st = setThermostat t body st
  ∧ sends_first st (thermostat_PUT c t body) (SetFanTimerActive t setting st).
Proof.
  intros Hp Hc Hurl body.
  assert (Heq : SetFanTimerActive t setting st = setThermostat t body st).
  { unfold SetFanTimerActive, body. rewrite Marshal_singleton by reflexivity.
    reflexivity. }
  split; [exact Heq|]. rewrite Heq.
  exact (set_resource_first_request (AThermostat t) body st l c Hp Hc Hurl).
Qed.

(** X3. When the first PUT of [setThermostat] or [setStructure], its
    URL parsing, fails in the transport, the result is an [http_error]
    that carries the text of the failure; the PUT is not tried again and
    the clients are as they were, whatever response came with the
    error. *)
Theorem PUT_transport_failure (r : Resource) (body : Bytes) (st : State W)
    (l : loc) (c : Client) (w1 : W) (resp : option Response) (err : string) :
  resource_Client r = Some l →
  clients st !! l = Some c →
  url_parses (resource_path r c) = true →
  RoundTrip (world st) (PUT (resource_path r c) body) = (w1, (resp, Some err)) →
  set_resource r body st
  = Ret (Some (mkAPIError "http_error" err "" 0))
        (mkState (clients st) w1 (sent st ++ [PUT (resource_path r c) body])
                 (delivered st)).
Proof.
  intros Hp Hc Hurl Hrt. rewrite set_resource_put_retry.
  destruct r; rewrite (put_retry_run _ _ _ body st l c w1 _ Hp Hc Hurl Hrt);
    reflexivity.
Qed.

(** X4. When the answer to the first PUT, its URL parsing, is neither
    a 200 nor a 307, the
    result is an error of kind [api_error], whatever kind the body names:
    the [error] field of the body becomes the description, and the status
    line and code of the answer are attached. One request was sent and
    the clients are as they were. *)
Theorem PUT_status_error (r : Resource) (body : Bytes) (st : State W)
    (l : loc) (c : Client) (w1 : W) (resp : Response) :
  resource_Client r = Some l →
  clients st !! l = Some c →
  url_parses (resource_path r c) = true →
  RoundTrip (world st) (PUT (resource_path r c) body) = (w1, (Some resp, None)) →
  resp_StatusCode resp ≠ 200 →
  resp_StatusCode resp ≠ 307 →
  ∃ e,
    set_resource r body st
    = Ret (Some e)
          (mkState (clients st) w1 (sent st ++ [PUT (resource_path r c) body])
                   (delivered st))
    ∧ Error e = "api_error"
    ∧ Description e
      = Error (target_after zero_APIError
                 (json_APIError (fst (ReadAll (resp_Body resp)))))
    ∧ Status e = resp_Status resp
    ∧ StatusCode e = resp_StatusCode resp.
Proof.
  intros Hp Hc Hurl Hrt H200 H307. exists (status_error resp).
  split; [|repeat split].
  rewrite set_resource_put_retry.
  destruct r; rewrite (put_retry_run _ _ _ body st l c w1 _ Hp Hc Hurl Hrt);
    cbn [fst snd]; cbv zeta; rewrite decide_False by exact H307;
    rewrite read_response_other by exact H200; reflexivity.
Qed.

(** A cached redirect URL is never the empty string. *)
Lemma scheme_host_nonempty (u : URL) : Scheme u +:+ "://" +:+ Host u ≠ "".
Proof. destruct (Scheme u); discriminate. Qed.

(** X5. Whatever the environment answers, a PUT of [setThermostat] or
    [setStructure] sends at most two requests and never invokes the
    callback of the stream; it leaves every other client as it was, and
    the client of the resource keeps its API URL and its token. *)
Theorem PUT_frame (r : Resource) (body : Bytes) (st : State W) (l : loc) :
  resource_Client r = Some l →
  let st' := final (set_resource r body st) in
  (∃ more, sent st' = sent st ++ more ∧ (length more ≤ 2)%nat)
  ∧ delivered st' = delivered st
  ∧ (∀ l', l' ≠ l → clients st' !! l' = clients st !! l')
  ∧ (∀ c, clients st !! l = Some c →
       ∃ c', clients st' !! l = Some c'
             ∧ APIURL c' = APIURL c ∧ Token c' = Token c).
Proof.
  intros Hp st'.
  assert (Hcases :
    (clients st' = clients st ∧ delivered st' = delivered st
     ∧ ∃ more, sent st' = sent st ++ more ∧ (length more ≤ 1)%nat)
    ∨ (∃ c u more, clients st !! l = Some c
         ∧ clients st' = <[l := redirected c (scheme_host u)]> (clients st)
         ∧ delivered st' = delivered st
         ∧ sent st' = sent st ++ more ∧ (length more ≤ 2)%nat)).
  { subst st'. rewrite set_resource_put_retry.
    destruct (clients st !! l) as [c|] eqn:Hc.
    - destruct (url_parses (resource_path r c)) eqn:Hurl.
      + destruct (RoundTrip (world st) (PUT (resource_path r c) body))
          as [w1 r1] eqn:Hrt.
        assert (Hrun := fun A (decode : string → Unmarshaled A) =>
                  put_retry_run decode _ _ body st l c w1 r1 Hp Hc Hurl Hrt).
        destruct r; rewrite Hrun; cbv zeta;
          (destruct r1 as [[resp|] [err|]]; cbn [fst snd final];
           [left; repeat split; eexists; split; [reflexivity|cbn; lia]
           |destruct (decide (resp_StatusCode resp = 307));
            [destruct (resp_Request_URL resp) as [u|];
             [destruct (url_parses (resource_path _ (redirected c (scheme_host u))));
              [destruct (RoundTrip w1 _) as [w2 [[response|] [err|]]];
               cbn [fst snd final]; right; exists c, u; eexists;
               (split; [reflexivity|]); repeat split; cbn; lia
              |cbn [final]; right; exists c, u; eexists;
               (split; [reflexivity|]); repeat split; cbn; lia]
             |left; repeat split; eexists; split; [reflexivity|cbn; lia]]
            |left; repeat split; eexists; split; [reflexivity|cbn; lia]]
           |left; repeat split; eexists; split; [reflexivity|cbn; lia]
           |left; repeat split; eexists; split; [reflexivity|cbn; lia]]).
      + left.
        assert (Hpanic : ∀ A (decode : string → Unmarshaled A),
                  put_retry decode (resource_Client r) (resource_path r) body st
                  = Panic st)
          by (intros; exact (put_retry_unparsable _ _ _ body st l c Hp Hc Hurl)).
        destruct r; rewrite Hpanic; cbn [final]; repeat split;
          exists []; (split; [symmetry; apply app_nil_r|cbn; lia]).
    - left.
      assert (Hpanic : ∀ A (decode : string → Unmarshaled A),
                put_retry decode (resource_Client r) (resource_path r) body st
                = Panic st)
        by (intros; unfold put_retry, bind, deref; rewrite Hp, Hc; reflexivity).
      destruct r; rewrite Hpanic; cbn [final]; repeat split;
        exists []; (split; [symmetry; apply app_nil_r|cbn; lia]). }
  destruct Hcases as [(Hcl & Hd & more & Hs & Hlen)
                     |(c & u & more & Hc & Hcl & Hd & Hs & Hlen)].
  - rewrite Hcl, Hd. repeat split.
    + exists more. split; [exact Hs|lia].
    + intros c0 Hc0. exists c0. repeat split. exact Hc0.
  - rewrite Hcl, Hd. repeat split.
    + exists more. split; [exact Hs|exact Hlen].
    + intros l' Hne. apply lookup_insert_ne. congruence.
    + intros c0 Hc0. rewrite Hc in Hc0. inversion Hc0; subst c0.
      eexists. split; [apply lookup_insert_eq|]. split; reflexivity.
Qed.

(** X6. The checks of a setter come before the client is looked at: on a
    thermostat whose client pointer is nil, a temperature out of range is
    still answered with an [api_error], and a temperature in range
    panics with nothing sent. *)
Theorem SetTargetTempF_nil_client (t : Thermostat) (temp : Z) (st : State W) :
  Thermostat_Client t = None →
  ((temp < 50 ∨ 90 < temp)%Z →
     ∃ e, SetTargetTempF t temp st = Ret (Some e) st ∧ Error e = "api_error")
  ∧ ((50 ≤ temp ≤ 90)%Z → SetTargetTempF t temp st = Panic st).
Proof.
  intros Hnil. split.
  - intros Hout. eexists. unfold SetTargetTempF.
    replace ((temp <? 50)%Z || (90 <? temp)%Z) with true
      by (symmetry; apply orb_true_iff; rewrite !Z.ltb_lt; lia).
    split; reflexivity.
  - intros Hin. unfold SetTargetTempF.
    replace ((temp <? 50)%Z || (90 <? temp)%Z) with false
      by (symmetry; apply orb_false_iff; rewrite !Z.ltb_ge; lia).
    unfold setThermostat, bind, deref. rewrite Hnil. reflexivity.
Qed.

End Setters.

Section CelsiusAndETA.

Context {W : Type} {RT : Runtime W} {JC : JSONCodec} {D : Declarations}.

Lemma SFcompare_defined (a b : spec_float) :
  a ≠ S754_nan → b ≠ S754_nan → ∃ c, SFcompare a b = Some c.
Proof.
  destruct a, b; cbn; intros Ha Hb; try congruence; eexists; reflexivity.
Qed.

Lemma f32_not_lt_le (a b : float32) :
  f32_val a ≠ S754_nan → f32_val b ≠ S754_nan →
  f32_lt a b = false → f32_le b a = true.
Proof.
  unfold f32_lt, f32_le, SFltb, SFleb. intros Ha Hb.
  rewrite (SFcompare_swap (f32_val a) (f32_val b)).
  destruct (SFcompare_defined _ _ Ha Hb) as [[ | | ] ->]; cbn; congruence.
Qed.

(** X7. The check of [SetTargetTempC] lets through the numbers from 9 to
    32 and, since every comparison with it is false, NaN: a target is
    either refused with an error and nothing sent, or a number from 9 to
    32 that is PUT under its key, or NaN, for which the PUT goes out with
    an empty body. *)
Theorem SetTargetTempC_cases (t : Thermostat) (temp : float32) (st : State W) :
  (∃ e, SetTargetTempC t temp st = Ret (Some e) st ∧ Error e = "api_error"
        ∧ (f32_lt temp f32_9 = true ∨ f32_lt f32_32 temp = true))
  ∨ (f32_le f32_9 temp = true ∧ f32_le temp f32_32 = true
     ∧ SetTargetTempC t temp st
       = setThermostat t (JSONText {[ "target_temperature_c" := JFloat32 temp ]}) st)
  ∨ (f32_val temp = S754_nan
     ∧ SetTargetTempC t temp st = setThermostat t NoBytes st).
Proof.
  unfold SetTargetTempC.
  destruct (f32_lt temp f32_9) eqn:Hlo; [left; eexists; repeat split; auto|].
  destruct (f32_lt f32_32 temp) eqn:Hhi; [left; eexists; repeat split; auto|].
  cbn [orb]. right.
  destruct (f32_val temp) as [s|s| |s m e] eqn:Hval.
  - left.
    assert (H9 : f32_le f32_9 temp = true)
      by (apply f32_not_lt_le; [rewrite Hval| |exact Hlo]; discriminate).
    assert (H32 : f32_le temp f32_32 = true)
      by (apply f32_not_lt_le; [|rewrite Hval|exact Hhi]; discriminate).
    repeat split; try assumption.
    rewrite Marshal_singleton; [reflexivity|].
    cbn. unfold f32_finite. rewrite Hval. reflexivity.
  - left.
    assert (H9 : f32_le f32_9 temp = true)
      by (apply f32_not_lt_le; [rewrite Hval| |exact Hlo]; discriminate).
    assert (H32 : f32_le temp f32_32 = true)
      by (apply f32_not_lt_le; [|rewrite Hval|exact Hhi]; discriminate).
    repeat split; try assumption.
    rewrite Marshal_singleton; [reflexivity|].
    exact (f32_between_finite f32_9 f32_32 temp eq_refl eq_refl H9 H32).
  - right. split; [reflexivity|].
    rewrite (Marshal_unsupported _ "target_temperature_c" (JFloat32 temp));
      [reflexivity|apply lookup_insert_eq|].
    cbn. unfold f32_finite. rewrite Hval. reflexivity.
  - left.
    assert (H9 : f32_le f32_9 temp = true)
      by (apply f32_not_lt_le; [rewrite Hval| |exact Hlo]; discriminate).
    assert (H32 : f32_le temp f32_32 = true)
      by (apply f32_not_lt_le; [|rewrite Hval|exact Hhi]; discriminate).
    repeat split; try assumption.
    rewrite Marshal_singleton; [reflexivity|].
    cbn. unfold f32_finite. rewrite Hval. reflexivity.
Qed.

(** X8. [SetTargetTempHighLowC] does not refuse a pair with a NaN: the
    comparison of the bounds is false, and the PUT goes out with an empty
    body, whichever bound the NaN is. *)
Theorem SetTargetTempHighLowC_NaN (t : Thermostat) (bound other : float32)
    (st : State W) :
  f32_val bound = S754_nan →
  SetTargetTempHighLowC t bound other st = setThermostat t NoBytes st
  ∧ SetTargetTempHighLowC t other bound st = setThermostat t NoBytes st.
Proof.
  intros Hnan.
  assert (Hsup : json_supported (JFloat32 bound) = false)
    by (cbn; unfold f32_finite; rewrite Hnan; reflexivity).
  unfold SetTargetTempHighLowC, f32_lt, SFltb. rewrite Hnan. split.
  - cbn [SFcompare].
    rewrite (Marshal_unsupported _ "target_temperature_high_c" (JFloat32 bound));
      [reflexivity| |exact Hsup].
    rewrite lookup_insert_ne by discriminate. apply lookup_insert_eq.
  - replace (SFcompare (f32_val other) S754_nan) with (@None comparison)
      by (destruct (f32_val other); reflexivity).
    rewrite (Marshal_unsupported _ "target_temperature_low_c" (JFloat32 bound));
      [reflexivity|apply lookup_insert_eq|exact Hsup].
Qed.

(** X9. [SetETA], when the URL of the ETA endpoint parses, sends one
    PUT and takes its answer as it is: a
    transport failure is an [http_error], a 200 is nil, and every other
    status, a 307 included, is an [api_error] with the status attached.
    Unlike the PUT of a structure, a 307 is not followed: nothing more is
    sent and the redirect URL of the client stays as it was. *)
Theorem SetETA_answer (s : Structure) (tripID : string) (begin end_ : Time)
    (st : State W) (w1 w2 : W) (now : Time) (l : loc) (c : Client) (r : DoResult) :
  Now (world st) = (w1, now) →
  (now ≤ begin ∧ begin ≤ end_)%Z →
  Structure_Client s = Some l →
  clients st !! l = Some c →
  url_parses (eta_path s c) = true →
  let req := eta_PUT c s (Marshal (ETA_object (mkETA tripID begin end_))) in
  RoundTrip w1 req = (w2, r) →
  let st2 := mkState (clients st) w2 (sent st ++ [req]) (delivered st) in
  (∀ err, snd r = Some err →
     SetETA s tripID begin end_ st = Ret (Some (mkAPIError "http_error" err "" 0)) st2)
  ∧ (∀ resp, r = (Some resp, None) → resp_StatusCode resp = 200 →
       SetETA s tripID begin end_ st = Ret None st2)
  ∧ (∀ resp, r = (Some resp, None) → resp_StatusCode resp ≠ 200 →
       SetETA s tripID begin end_ st = Ret (Some (status_error resp)) st2
       ∧ Error (status_error resp) = "api_error"
       ∧ StatusCode (status_error resp) = resp_StatusCode resp).
Proof.
  intros Hnow [Hb He] Hp Hc Hurl req Hrt st2.
  assert (Hrun : SetETA s tripID begin end_ st
            = match snd r with
              | Some err => Ret (Some (http_error err)) st2
              | None =>
                  match fst r with
                  | None => Panic st2
                  | Some resp =>
                      Ret (if decide (resp_StatusCode resp = 200) then None
                           else Some (status_error resp)) st2
                  end
              end).
  { unfold SetETA, bind. rewrite (checkTimes_run _ _ _ _ _ Hnow).
    unfold Before.
    replace (begin <? now)%Z with false by (symmetry; apply Z.ltb_ge; lia).
    replace (end_ <? begin)%Z with false by (symmetry; apply Z.ltb_ge; lia).
    unfold ret, deref, Do, NewRequest. rewrite Hp.
    cbn [clients world sent delivered]. rewrite Hc.
    unfold eta_path in Hurl. rewrite Hurl. cbn [nonnil]. unfold ret.
    cbn [clients world sent delivered].
    unfold req, eta_PUT, eta_path in Hrt. rewrite Hrt.
    destruct r as [[resp|] [err|]]; cbn [fst snd]; unfold nonnil, ret, panic;
      try reflexivity.
    destruct (decide (resp_StatusCode resp = 200)); reflexivity. }
  repeat split.
  - intros err Herr. rewrite Hrun, Herr. reflexivity.
  - intros resp -> H200. rewrite Hrun. cbn [fst snd].
    rewrite decide_True by exact H200. reflexivity.
  - subst r. rewrite Hrun. cbn [fst snd].
    rewrite decide_False by assumption. reflexivity.
Qed.

End CelsiusAndETA.

Section FetchAndStream.

Context {W : Type} {RT : Runtime W} {JC : JSONCodec} {D : Declarations}.

(** X10. The request of [getStructures] is a GET without a body, to the
    API URL while no redirect URL is cached and to the redirect URL once
    there is one; it asks for an event stream only when a redirect URL is
    cached and the action is [Stream], so the first connection of a fresh
    client carries no [Accept] header even for the stream. The request is
    sent when its URL parses; when it does not, the request is nil and
    [getStructures] panics with nothing sent. *)
Theorem getStructures_request (c : loc) (action : Z) (st : State W) (cl : Client) :
  clients st !! c = Some cl →
  let req :=
    mkRequest "GET"
      ((if decide (RedirectURL cl = "") then APIURL cl else RedirectURL cl)
       +:+ "/structures.json?auth=" +:+ Token cl)
      (if decide (RedirectURL cl ≠ "" ∧ action = Stream)
       then [("Accept", "text/event-stream")] else [])
      NoBytes in
  (url_parses (req_URL req) = true →
   sends_first st req (getStructures c action st))
  ∧ (url_parses (req_URL req) = false → getStructures c action st = Panic st).
Proof.
  intros Hc req. split; [|exact (getStructures_unparsable c action st cl Hc)].
  unfold sends_first.
  destruct (decide (RedirectURL cl = "")) as [Hurl|Hurl]; intros Hparse.
  - destruct (RoundTrip (world st) (first_GET cl)) as [w1 r] eqn:Hrt.
    assert (Hreq : req = first_GET cl).
    { unfold req, first_GET. rewrite decide_False by tauto. reflexivity. }
    rewrite Hreq in *.
    rewrite (getStructures_fresh c action st cl w1 r Hc Hurl Hparse Hrt). cbv zeta.
    destruct (fst r) as [resp|]; [|exists []; reflexivity].
    destruct (resp_Request_URL resp); exists []; reflexivity.
  - destruct (RoundTrip (world st) (structures_GET cl action)) as [w1 r] eqn:Hrt.
    assert (Hreq : req = structures_GET cl action).
    { unfold req, structures_GET.
      destruct (decide (action = Stream)).
      - rewrite decide_True by tauto. reflexivity.
      - rewrite decide_False by tauto. reflexivity. }
    rewrite Hreq in *.
    rewrite (getStructures_cached c action st cl w1 r Hc Hurl Hparse Hrt).
    exists []. reflexivity.
Qed.

(** X11. The first [getStructures] of a client caches the scheme and host
    of the request URL of its answer, whatever the status of the answer
    and even when an error comes with it, and the next [getStructures]
    goes to that base, with nothing changed on the client; the URLs of
    both requests are taken to parse. *)
Theorem getStructures_primes_redirect (c : loc) (action action' : Z)
    (st : State W) (cl : Client) (w1 w2 : W) (resp : Response)
    (err : option string) (u : URL) (r2 : DoResult) :
  clients st !! c = Some cl →
  RedirectURL cl = "" →
  url_parses (req_URL (first_GET cl)) = true →
  RoundTrip (world st) (first_GET cl) = (w1, (Some resp, err)) →
  resp_Request_URL resp = Some u →
  let cl' := redirected cl (scheme_host u) in
  url_parses (req_URL (structures_GET cl' action')) = true →
  RoundTrip w1 (structures_GET cl' action') = (w2, r2) →
  bind (getStructures c action) (fun _ => getStructures c action') st
  = Ret r2 (mkState (<[c := cl']> (clients st)) w2
                    (sent st ++ [first_GET cl; structures_GET cl' action'])
                    (delivered st)).
Proof.
  intros Hc Hurl Hparse Hrt Hu cl' Hparse2 Hrt2. unfold bind.
  rewrite (getStructures_fresh c action st cl w1 _ Hc Hurl Hparse Hrt).
  cbn [fst]. cbv zeta. rewrite Hu. fold cl'.
  rewrite (getStructures_cached c action' _ cl' w2 r2).
  - cbn [clients world sent delivered]. rewrite <- app_assoc. reflexivity.
  - cbn [clients]. apply lookup_insert_eq.
  - apply scheme_host_nonempty.
  - exact Hparse2.
  - exact Hrt2.
Qed.

(** X12. A fetch that gets a 200 with a readable body returns, with a nil
    error, the map that the decoder left, whether or not the decoder
    reported an error: the same keys, and behind every key the decoded
    structure with its [Client] set to the client of the fetch. *)
Theorem Structures_back_references (c : loc) (st st1 : State W) (resp : Response)
    (structures : Structures_map) :
  getStructures c NoStream st = Ret (Some resp, None) st1 →
  body_err (resp_Body resp) = None →
  resp_StatusCode resp = 200 →
  target_after ∅ (json_Structures (fst (ReadAll (resp_Body resp)))) = structures →
  map_Forall (fun _ entry => is_Some entry) structures →
  ∃ result,
    Structures c st = Ret (Some result, None) st1
    ∧ dom result = dom structures
    ∧ ∀ k x, result !! k = Some x →
        ∃ s0 s, structures !! k = Some (Some s0) ∧ x = Some s
                ∧ Structure_Client s = Some c
                ∧ StructureID s = StructureID s0
                ∧ Structure_Away s = Structure_Away s0.
Proof.
  intros Hget Hbody H200 Hjson Hall.
  exists (associate c <$> structures). split; [|split].
  - unfold Structures, bind. rewrite Hget. cbn [fst snd nonnil]. unfold ret.
    unfold ReadAll in *. rewrite Hbody. cbn [fst] in Hjson.
    rewrite decide_True by exact H200. rewrite Hjson.
    rewrite associateClientToStructures_sound by exact Hall. reflexivity.
  - apply dom_fmap_L.
  - intros k x. apply associate_back_reference. exact Hall.
Qed.

(** X13. On a client without a redirect URL, a connection attempt of the
    stream, its URL parsing, that fails in the transport panics, as the
    fetch does: the callback is not told. *)
Theorem streamStructures_fresh_failure_panics (c : loc) (st : State W)
    (cl : Client) (w1 : W) (err : option string) :
  clients st !! c = Some cl →
  RedirectURL cl = "" →
  url_parses (req_URL (first_GET cl)) = true →
  RoundTrip (world st) (first_GET cl) = (w1, (None, err)) →
  streamStructures c st
  = Panic (mkState (clients st) w1 (sent st ++ [first_GET cl]) (delivered st)).
Proof.
  intros Hc Hurl Hparse Hrt. unfold streamStructures, bind.
  rewrite (getStructures_fresh c Stream st cl w1 _ Hc Hurl Hparse Hrt).
  reflexivity.
Qed.

(** X14. [associateClientToStructures] either sets the client of every
    entry, keeping the keys and the other fields, or, when an entry is a
    nil pointer, panics; the state is not touched either way. *)
Theorem associateClientToStructures_cases (c : loc) (structures : Structures_map)
    (st : State W) :
  (map_Forall (fun _ entry => is_Some entry) structures
   ∧ associateClientToStructures c structures st
     = Ret (associate c <$> structures) st
   ∧ dom (associate c <$> structures) = dom structures
   ∧ ∀ k s0, structures !! k = Some (Some s0) →
       (associate c <$> structures) !! k
       = Some (Some (mkStructure (StructureID s0) (Structure_Away s0) (Some c))))
  ∨ ((∃ k, structures !! k = Some None)
     ∧ associateClientToStructures c structures st = Panic st).
Proof.
  destruct (decide (map_Forall (fun (_ : string) (entry : option Structure) =>
                                  is_Some entry) structures)) as [Hall|Hnot].
  - left. split; [exact Hall|]. split; [|split].
    + apply associateClientToStructures_sound. exact Hall.
    + apply dom_fmap_L.
    + intros k s0 Hk. rewrite lookup_fmap, Hk. reflexivity.
  - right.
    apply map_not_Forall in Hnot; [|intros ? ?; apply _].
    destruct Hnot as (k & x & Hk & Hx). destruct x as [s0|].
    + exfalso. apply Hx. eexists. reflexivity.
    + split; [exists k; exact Hk|].
      apply (associateClientToStructures_nil c structures st k Hk).
Qed.

(** The watch loop on one list of lines after another. *)
Lemma watch_lines_app (c : loc) (lines1 lines2 : list string) :
  ∀ st : State W,
    watch_lines c (lines1 ++ lines2) st
    = bind (watch_lines c lines1) (fun _ => watch_lines c lines2) st.
Proof.
  induction lines1 as [|line lines1 IH]; intros st; [reflexivity|].
  cbn [app watch_lines]. unfold bind at 1 3 4.
  match goal with |- context [match ?step st with _ => _ end] =>
    destruct (step st) as [[] s'|s'] end; [apply IH|reflexivity].
Qed.

(** X15. A data line whose mapping has a null entry stops the watch loop
    with a panic: what was delivered for the lines before it stays
    delivered, the callback is not invoked for the line, and the lines
    after it are not looked at. *)
Theorem watch_null_entry_panics (c : loc) (before after : list string)
    (line : string) (data : Structures_map) (k : string) (st : State W) :
  Forall line_sound before →
  line_data line = Some data →
  data !! k = Some None →
  watch_lines c (before ++ line :: after) st
  = Panic (mkState (clients st) (world st) (sent st)
                   (delivered st ++ body_deliveries c before)).
Proof.
  intros Hbefore Hline Hk. rewrite watch_lines_app. unfold bind.
  rewrite (watch_lines_sound c before st Hbefore).
  cbn [watch_lines]. unfold bind. unfold line_data in Hline.
  destruct (decide (parseStreamData line = "")); [discriminate|].
  rewrite Hline.
  rewrite (associateClientToStructures_nil c data _ k Hk). reflexivity.
Qed.

Lemma body_deliveries_omap (c : loc) (lines : list string) :
  body_deliveries c lines = omap (line_delivery c) lines.
Proof.
  induction lines as [|line lines IH]; [reflexivity|].
  rewrite body_deliveries_cons, IH. cbn [omap list_omap].
  unfold line_deliveries, line_delivery.
  destruct (line_data line); reflexivity.
Qed.

(** X16. On a body whose mappings have no null entry, the watch loop
    returns at the end of the body, having invoked the callback once for
    each line that carries a mapping, in the order of the lines and each
    time with a nil error; it sends nothing and changes no client. *)
Theorem watch_delivers_in_order (c : loc) (resp : Response) (st : State W) :
  Forall line_sound (body_lines (resp_Body resp)) →
  watchStructuresStream c resp st
  = Ret tt (mkState (clients st) (world st) (sent st)
              (delivered st ++ omap (line_delivery c) (body_lines (resp_Body resp)))).
Proof.
  intros Hall. unfold watchStructuresStream.
  rewrite (watch_lines_sound c _ st Hall), body_deliveries_omap. reflexivity.
Qed.


End FetchAndStream.

Section Invariants.

Context {W : Type} {RT : Runtime W} {JC : JSONCodec} {D : Declarations}.

Lemma same_account_refl (c : Client) : same_account c c.
Proof. repeat split. auto. Qed.

Lemma same_account_trans (c1 c2 c3 : Client) :
  same_account c1 c2 → same_account c2 c3 → same_account c1 c3.
Proof.
  intros (Ha1 & Ht1 & Hr1) (Ha2 & Ht2 & Hr2).
  repeat split; [congruence|congruence|auto].
Qed.

Lemma evolves_refl (st : State W) : evolves st st.
Proof.
  split; [|split; reflexivity].
  intros l. destruct (clients st !! l); [apply same_account_refl|exact I].
Qed.

Lemma evolves_trans (st1 st2 st3 : State W) :
  evolves st1 st2 → evolves st2 st3 → evolves st1 st3.
Proof.
  intros (Hc1 & Hs1 & Hd1) (Hc2 & Hs2 & Hd2).
  split; [|split; etransitivity; eassumption].
  intros l. specialize (Hc1 l). specialize (Hc2 l).
  destruct (clients st1 !! l), (clients st2 !! l), (clients st3 !! l);
    try contradiction; try exact I.
  eapply same_account_trans; eassumption.
Qed.

Lemma keeps_ret {A} (a : A) : keeps (ret a : M W A).
Proof. intros st. apply evolves_refl. Qed.

Lemma keeps_panic {A} : keeps (panic : M W A).
Proof. intros st. apply evolves_refl. Qed.

Lemma keeps_bind {A B} (m : M W A) (k : A → M W B) :
  keeps m → (∀ a, keeps (k a)) → keeps (bind m k).
Proof.
  intros Hm Hk st. unfold bind. specialize (Hm st).
  destruct (m st) as [a s'|s']; cbn [final] in Hm; [|exact Hm].
  eapply evolves_trans; [exact Hm|apply Hk].
Qed.

Lemma keeps_nonnil {A} (p : option A) : keeps (nonnil p : M W A).
Proof. destruct p; [apply keeps_ret|apply keeps_panic]. Qed.

Lemma keeps_deref (p : option loc) : keeps (deref p : M W Client).
Proof.
  intros st. unfold deref.
  destruct p as [l|]; [destruct (clients st !! l)|]; apply evolves_refl.
Qed.

Lemma keeps_Do (req : Request) : keeps (Do req).
Proof.
  intros st. unfold Do. destruct (RoundTrip (world st) req) as [w r].
  cbn [final]. split; [|split; cbn; [apply prefix_app_r|]; reflexivity].
  intros l. cbn. destruct (clients st !! l); [apply same_account_refl|exact I].
Qed.

Lemma keeps_time_Now : keeps (time_Now : M W Time).
Proof.
  intros st. unfold time_Now. destruct (Now (world st)) as [w t].
  cbn [final]. split; [|split; reflexivity].
  intros l. cbn. destruct (clients st !! l); [apply same_account_refl|exact I].
Qed.

Lemma keeps_callback (structures : option Structures_map) (err : option string) :
  keeps (callback structures err : M W unit).
Proof.
  intros st. unfold callback. cbn [final].
  split; [|split; cbn; [|apply prefix_app_r]; reflexivity].
  intros l. cbn. destruct (clients st !! l); [apply same_account_refl|exact I].
Qed.

Lemma keeps_set_RedirectURL (p : option loc) (u : URL) :
  keeps (set_RedirectURL p (Scheme u +:+ "://" +:+ Host u) : M W unit).
Proof.
  intros st. unfold set_RedirectURL, bind, deref.
  destruct p as [l|]; [|apply evolves_refl].
  destruct (clients st !! l) as [c|] eqn:Hc; [|apply evolves_refl].
  cbn [nonnil ret final]. split; [|split; reflexivity].
  intros l'. cbn [clients]. destruct (decide (l = l')) as [<-|Hne].
  - rewrite Hc, lookup_insert_eq. repeat split.
    intros _. apply scheme_host_nonempty.
  - rewrite lookup_insert_ne by exact Hne.
    destruct (clients st !! l'); [apply same_account_refl|exact I].
Qed.

Create HintDb keeps.

#[local] Hint Resolve keeps_ret keeps_panic keeps_nonnil keeps_deref keeps_Do
  keeps_time_Now keeps_callback keeps_set_RedirectURL : keeps.

(** One step through the code of an operation: a bind, a branch, or an
    operation that is known to keep the state. *)
Ltac keeps_step :=
  match goal with
  | |- keeps (bind _ _) => apply keeps_bind; [|intros ?]
  | |- keeps (match ?x with _ => _ end) => destruct x
  | |- keeps _ => solve [auto with keeps]
  end.

Lemma keeps_put_retry {A} (decode : string → Unmarshaled A) (p : option loc)
    (path : Client → string) (body : Bytes) :
  keeps (put_retry decode p path body).
Proof. unfold put_retry. repeat keeps_step. Qed.

Lemma keeps_setThermostat (t : Thermostat) (body : Bytes) :
  keeps (setThermostat t body).
Proof. rewrite setThermostat_put_retry. apply keeps_put_retry. Qed.

Lemma keeps_setStructure (s : Structure) (body : Bytes) :
  keeps (setStructure s body).
Proof. rewrite setStructure_put_retry. apply keeps_put_retry. Qed.

Lemma keeps_getStructures (c : loc) (action : Z) : keeps (getStructures c action).
Proof. unfold getStructures. repeat keeps_step. Qed.

Lemma keeps_associateClientToStructures (c : loc) (structures : Structures_map) :
  keeps (associateClientToStructures c structures : M W Structures_map).
Proof. unfold associateClientToStructures. repeat keeps_step. Qed.

#[local] Hint Resolve keeps_setThermostat keeps_setStructure keeps_getStructures
  keeps_associateClientToStructures : keeps.

Lemma keeps_Structures (c : loc) : keeps (Structures c).
Proof. unfold Structures. repeat keeps_step. Qed.

Lemma keeps_watch_lines (c : loc) (lines : list string) :
  keeps (watch_lines c lines : M W unit).
Proof.
  induction lines as [|line lines IH]; [exact (keeps_ret tt)|].
  cbn [watch_lines]. apply keeps_bind; [|intros _; exact IH].
  repeat keeps_step.
Qed.

#[local] Hint Resolve keeps_watch_lines : keeps.

Lemma keeps_streamStructures (c : loc) : keeps (streamStructures c).
Proof. unfold streamStructures, watchStructuresStream. repeat keeps_step. Qed.

Lemma keeps_stream_loop (n : nat) (c : loc) : keeps (stream_loop n c).
Proof.
  induction n as [|n IH]; [exact (keeps_ret tt)|].
  cbn [stream_loop]. apply keeps_bind; [apply keeps_streamStructures|].
  intros _. exact IH.
Qed.

Lemma keeps_SetETA (s : Structure) (tripID : string) (begin end_ : Time) :
  keeps (SetETA s tripID begin end_).
Proof. unfold SetETA, checkTimes. repeat keeps_step. Qed.

#[local] Hint Resolve keeps_Structures keeps_stream_loop keeps_SetETA : keeps.

Lemma keeps_perform (call : Call) : keeps (perform call).
Proof.
  destruct call; cbn [perform];
    unfold SetFanTimerActive, SetHvacMode, SetTargetTempC, SetTargetTempF,
           SetTargetTempHighLowC, SetTargetTempHighLowF, SetAway;
    repeat keeps_step.
Qed.

Lemma keeps_perform_all (calls : list Call) : keeps (perform_all calls).
Proof.
  induction calls as [|call calls IH]; [exact (keeps_ret tt)|].
  cbn [perform_all]. apply keeps_bind; [apply keeps_perform|intros _; exact IH].
Qed.

(** X18. Through any program of calls of the package, however the
    environment answers and whether or not the program ends in a panic,
    every client stays on the heap with the API URL and the token it
    had; a client that had a redirect URL still has one; no client
    appears; and the requests sent and the deliveries to the callback
    are only added to. *)
Theorem calls_keep_accounts (calls : list Call) (st : State W) :
  let st' := final (perform_all calls st) in
  (∀ l c, clients st !! l = Some c →
     ∃ c', clients st' !! l = Some c'
           ∧ APIURL c' = APIURL c ∧ Token c' = Token c
           ∧ (RedirectURL c ≠ "" → RedirectURL c' ≠ ""))
  ∧ (∀ l, clients st !! l = None → clients st' !! l = None)
  ∧ sent st `prefix_of` sent st'
  ∧ delivered st `prefix_of` delivered st'.
Proof.
  intros st'. destruct (keeps_perform_all calls st) as (Hc & Hs & Hd).
  fold st' in Hc, Hs, Hd. repeat split; try assumption.
  - intros l c Hl. specialize (Hc l). rewrite Hl in Hc.
    destruct (clients st' !! l) as [c'|]; [|contradiction].
    exists c'. destruct Hc as (? & ? & ?). repeat split; assumption.
  - intros l Hl. specialize (Hc l). rewrite Hl in Hc.
    destruct (clients st' !! l); [contradiction|reflexivity].
Qed.

End Invariants.

Section ChecksAndErrors.

Context {W : Type} {RT : Runtime W} {JC : JSONCodec} {D : Declarations}.

(** X19. The check of [SetETA] reads the clock once and is strict on both
    sides: a begin before the current time, or an end before the begin,
    is refused with an [eta_error] and nothing is sent; every other pair
    of times, equal times included, is PUT to the ETA endpoint of the
    structure when the URL of the endpoint parses, as a request without
    a [Content-Type] header. *)
Theorem SetETA_check (s : Structure) (tripID : string) (begin end_ : Time)
    (st : State W) (w1 : W) (now : Time) (l : loc) (c : Client) :
  Now (world st) = (w1, now) →
  Structure_Client s = Some l →
  clients st !! l = Some c →
  ((begin < now ∨ end_ < begin)%Z →
     ∃ e, SetETA s tripID begin end_ st
          = Ret (Some e) (mkState (clients st) w1 (sent st) (delivered st))
          ∧ Error e = "eta_error")
  ∧ ((now ≤ begin ∧ begin ≤ end_)%Z →
       url_parses (eta_path s c) = true →
       let req := eta_PUT c s (Marshal (ETA_object (mkETA tripID begin end_))) in
       sends_first st req (SetETA s tripID begin end_ st)
       ∧ req_Method req = "PUT"
       ∧ req_URL req = RedirectURL c +:+ "/structures/" +:+ StructureID s
                       +:+ "/eta.json?auth=" +:+ Token c
       ∧ req_Header req = []).
Proof.
  intros Hnow Hp Hc. split.
  - intros Hbad. exact (SetETA_before_refused s tripID begin end_ st w1 now Hnow Hbad).
  - intros Hok Hurl req. split; [|repeat split].
    exact (proj1 (SetETA_sent s tripID begin end_ st w1 now l c Hnow Hok Hp Hc Hurl)).
Qed.

(** X20. The errors of [Structures], for whatever [getStructures] hands
    back: an error of the transport is a [devices_error] with its text; a
    body that cannot be read is a [body_read_error] with the text of the
    read error; and for a status that is not 200 the result is the error
    record as decoded from the body, its kind and its status fields
    being those of the body and not those of the response. No map is
    returned in any of the three. *)
Theorem Structures_error_kinds (c : loc) (st st1 : State W) (r : DoResult) :
  getStructures c NoStream st = Ret r st1 →
  (∀ err, snd r = Some err →
     Structures c st = Ret (None, Some (mkAPIError "devices_error" err "" 0)) st1)
  ∧ (∀ resp err, r = (Some resp, None) → body_err (resp_Body resp) = Some err →
       Structures c st = Ret (None, Some (mkAPIError "body_read_error" err "" 0)) st1)
  ∧ (∀ resp, r = (Some resp, None) → body_err (resp_Body resp) = None →
       resp_StatusCode resp ≠ 200 →
       Structures c st
       = Ret (None, Some (target_after zero_APIError
                            (json_APIError (fst (ReadAll (resp_Body resp)))))) st1).
Proof.
  intros Hget. unfold Structures, bind. rewrite Hget. split; [|split].
  - intros err Herr. rewrite Herr. reflexivity.
  - intros resp err -> Hbody. cbn [fst snd nonnil]. unfold ret, ReadAll.
    rewrite Hbody. reflexivity.
  - intros resp -> Hbody Hstatus. cbn [fst snd nonnil]. unfold ret, ReadAll.
    rewrite Hbody. rewrite decide_False by exact Hstatus. reflexivity.
Qed.

End ChecksAndErrors.

(** ** More of the code, at concrete inputs *)

Lemma SetAway_modes_witness :
  let st := sample_state sample_client [(Some (ok_response ""), None)] in
  (∃ e, SetAway sample_structure 7 st = Ret (Some e) st ∧ Error e = "api_error")
  ∧ SetAway sample_structure AutoAway st
    = setStructure sample_structure (JSONText {[ "away" := JString "auto-away" ]}) st
  ∧ sends_first st
      (structure_PUT sample_client sample_structure
         (JSONText {[ "away" := JString "auto-away" ]}))
      (SetAway sample_structure AutoAway st).
Proof.
  intros st.
  assert (Hin : (AutoAway, "auto-away")
                ∈ [(Home, "home"); (Away, "away"); (AutoAway, "auto-away")])
    by apply list_elem_of_further, list_elem_of_further, list_elem_of_here.
  split; [|split].
  - apply (proj1 (SetAway_modes sample_structure 7 st)).
    rewrite !not_elem_of_cons. repeat split; try discriminate.
    apply not_elem_of_nil.
  - exact (proj1 (proj2 (SetAway_modes sample_structure AutoAway st)
                    "auto-away" Hin)).
  - exact (proj2 (proj2 (SetAway_modes (RT := Script_Runtime) (JC := sample_codec)
                           (D := sample_declarations)
                           sample_structure AutoAway st)
                    "auto-away" Hin)
             1%positive sample_client eq_refl eq_refl eq_refl).
Defined.

Lemma SetFanTimerActive_sends_witness :
  let st := sample_state sample_client [(Some (ok_response ""), None)] in
  sends_first st
    (thermostat_PUT sample_client sample_thermostat
       (JSONText {[ "fan_timer_active" := JBool true ]}))
    (SetFanTimerActive sample_thermostat true st).
Proof.
  intros st.
  exact (proj2 (SetFanTimerActive_sends sample_thermostat true st 1%positive
                  sample_client eq_refl eq_refl eq_refl)).
Defined.

Lemma PUT_transport_failure_witness :
  let st := sample_state sample_client [(None, Some "dial tcp: i/o timeout")] in
  let body := JSONText {[ "away" := JString "away" ]} in
  set_resource (AStructure sample_structure) body st
  = Ret (Some (mkAPIError "http_error" "dial tcp: i/o timeout" "" 0))
        (mkState (clients st) (mkScript [] 1000)
           (sent st ++ [PUT (structure_path sample_structure sample_client) body])
           (delivered st)).
Proof.
  intros st body.
  exact (PUT_transport_failure (AStructure sample_structure) body st 1%positive
           sample_client (mkScript [] 1000) None "dial tcp: i/o timeout"
           eq_refl eq_refl eq_refl eq_refl).
Defined.

Lemma PUT_status_error_witness :
  let forbidden :=
    mkResponse "403 Forbidden" 403
      (Some (mkURL "https" "firebase-apiserver01.nest.com"))
      (mkBody [] error_body None) in
  let st := sample_state sample_client [(Some forbidden, None)] in
  let body := JSONText {[ "target_temperature_f" := JInt 78 ]} in
  ∃ e, set_resource (AThermostat sample_thermostat) body st
       = Ret (Some e)
           (mkState (clients st) (mkScript [] 1000)
              (sent st ++ [PUT (thermostat_path sample_thermostat sample_client) body])
              (delivered st))
       ∧ Error e = "api_error" ∧ Description e = "blocked"
       ∧ Status e = "403 Forbidden" ∧ StatusCode e = 403.
Proof.
  intros forbidden st body.
  destruct (PUT_status_error (RT := Script_Runtime) (JC := sample_codec)
              (AThermostat sample_thermostat) body st 1%positive
              sample_client (mkScript [] 1000) forbidden
              eq_refl eq_refl eq_refl eq_refl
              ltac:(discriminate) ltac:(discriminate))
    as (e & Hrun & Hkind & Hdescription & Hstatus & Hcode).
  exists e. split; [exact Hrun|]. split; [exact Hkind|].
  split; [rewrite Hdescription; reflexivity|].
  split; [exact Hstatus|exact Hcode].
Defined.

Lemma PUT_frame_witness :
  let st := sample_state sample_client
              [(Some redirect_response, None); (Some (ok_response ""), None)] in
  let body := JSONText {[ "target_temperature_f" := JInt 78 ]} in
  let st' := final (set_resource (AThermostat sample_thermostat) body st) in
  (∃ more, sent st' = sent st ++ more ∧ (length more ≤ 2)%nat)
  ∧ delivered st' = delivered st
  ∧ (∀ l', l' ≠ 1%positive → clients st' !! l' = clients st !! l')
  ∧ (∀ c, clients st !! 1%positive = Some c →
       ∃ c', clients st' !! 1%positive = Some c'
             ∧ APIURL c' = APIURL c ∧ Token c' = Token c).
Proof.
  intros st body.
  exact (PUT_frame (AThermostat sample_thermostat) body st 1%positive eq_refl).
Defined.

Lemma SetTargetTempF_nil_client_witness :
  let t := mkThermostat "peyiJNo0" None in
  let st := sample_state sample_client [(Some (ok_response ""), None)] in
  (∃ e, SetTargetTempF t 40 st = Ret (Some e) st ∧ Error e = "api_error")
  ∧ SetTargetTempF t 78 st = Panic st.
Proof.
  intros t st.
  destruct (SetTargetTempF_nil_client t 40 st eq_refl) as [Hout _].
  destruct (SetTargetTempF_nil_client t 78 st eq_refl) as [_ Hin].
  split; [apply Hout; lia|apply Hin; lia].
Defined.

Lemma SetTargetTempHighLowC_NaN_witness :
  let st := sample_state sample_client [(Some (ok_response ""), None)] in
  SetTargetTempHighLowC sample_thermostat f32_nan f32_20 st
  = setThermostat sample_thermostat NoBytes st
  ∧ SetTargetTempHighLowC sample_thermostat f32_20 f32_nan st
    = setThermostat sample_thermostat NoBytes st.
Proof.
  intros st.
  exact (SetTargetTempHighLowC_NaN sample_thermostat f32_nan f32_20 st eq_refl).
Defined.

Lemma SetETA_check_witness :
  let st := sample_state sample_client [(Some (ok_response ""), None)] in
  (∃ e, SetETA sample_structure "trip" 500 3000 st
        = Ret (Some e) (mkState (clients st) (world st) (sent st) (delivered st))
        ∧ Error e = "eta_error")
  ∧ sends_first st
      (eta_PUT sample_client sample_structure
         (Marshal (ETA_object (mkETA "trip" 2000 3000))))
      (SetETA sample_structure "trip" 2000 3000 st).
Proof.
  intros st. split.
  - apply (proj1 (SetETA_check (RT := Script_Runtime) (JC := sample_codec)
                    sample_structure "trip" 500 3000 st (world st) 1000
                    1%positive sample_client eq_refl eq_refl eq_refl)).
    left. lia.
  - apply (proj2 (SetETA_check (RT := Script_Runtime) (JC := sample_codec)
                    sample_structure "trip" 2000 3000 st (world st) 1000
                    1%positive sample_client eq_refl eq_refl eq_refl));
      [lia|reflexivity].
Defined.

Lemma SetETA_answer_witness :
  let st := sample_state sample_client [(Some redirect_response, None)] in
  let req := eta_PUT sample_client sample_structure
               (Marshal (ETA_object (mkETA "trip" 2000 3000))) in
  SetETA sample_structure "trip" 2000 3000 st
  = Ret (Some (status_error redirect_response))
        (mkState (clients st) (mkScript [] 1000) (sent st ++ [req]) (delivered st))
  ∧ Error (status_error redirect_response) = "api_error"
  ∧ StatusCode (status_error redirect_response) = 307.
Proof.
  intros st req.
  apply (proj2 (proj2
           (SetETA_answer (RT := Script_Runtime) (JC := sample_codec)
              sample_structure "trip" 2000 3000 st (world st)
              (mkScript [] 1000) 1000 1%positive sample_client
              (Some redirect_response, None)
              eq_refl ltac:(lia) eq_refl eq_refl eq_refl eq_refl))
           redirect_response eq_refl).
  discriminate.
Defined.

Lemma Structures_error_kinds_witness :
  let forbidden :=
    mkResponse "403 Forbidden" 403
      (Some (mkURL "https" "firebase-apiserver01.nest.com"))
      (mkBody [] error_body None) in
  let st := sample_state sample_client [(Some forbidden, None)] in
  Structures 1%positive st
  = Ret (None, Some (mkAPIError "blocked" "" "" 0))
        (mkState (clients st) (mkScript [] 1000)
                 [structures_GET sample_client NoStream] []).
Proof.
  intros forbidden st.
  assert (Hget : getStructures 1%positive NoStream st
                 = Ret (Some forbidden, None)
                       (mkState (clients st) (mkScript [] 1000)
                                [structures_GET sample_client NoStream] []))
    by reflexivity.
  rewrite (proj2 (proj2 (Structures_error_kinds 1%positive st _ _ Hget))
             forbidden eq_refl eq_refl ltac:(discriminate)).
  reflexivity.
Defined.

Lemma Structures_back_references_witness :
  let st := sample_state fresh_client [(Some (ok_response structures_body), None)] in
  ∃ result st1,
    Structures 1%positive st = Ret (Some result, None) st1
    ∧ dom result = dom sample_structures
    ∧ ∀ k x, result !! k = Some x →
        ∃ s0 s, sample_structures !! k = Some (Some s0) ∧ x = Some s
                ∧ Structure_Client s = Some 1%positive
                ∧ StructureID s = StructureID s0
                ∧ Structure_Away s = Structure_Away s0.
Proof.
  intros st.
  assert (Hget : getStructures 1%positive NoStream st
                 = Ret (Some (ok_response structures_body), None)
                       (final (getStructures 1%positive NoStream st)))
    by reflexivity.
  assert (Hjson : target_after ∅
                    (json_Structures
                       (fst (ReadAll (resp_Body (ok_response structures_body)))))
                  = sample_structures) by reflexivity.
  destruct (Structures_back_references 1%positive st _
              (ok_response structures_body) sample_structures
              Hget eq_refl eq_refl Hjson sample_structures_sound)
    as (result & Hrun & Hdom & Hentries).
  exists result. eexists. split; [exact Hrun|]. split; [exact Hdom|exact Hentries].
Defined.

Lemma getStructures_request_witness :
  let st := sample_state fresh_client [(Some (ok_response structures_body), None)] in
  sends_first st
    (mkRequest "GET" "https://developer-api.nest.com/structures.json?auth=c.token"
               [] NoBytes)
    (getStructures 1%positive Stream st)
  ∧ sends_first (sample_state sample_client [])
      (mkRequest "GET"
         "https://firebase-apiserver01.nest.com/structures.json?auth=c.token"
         [("Accept", "text/event-stream")] NoBytes)
      (getStructures 1%positive Stream (sample_state sample_client [])).
Proof.
  intros st. split.
  - exact (proj1 (getStructures_request 1%positive Stream st fresh_client eq_refl)
             eq_refl).
  - exact (proj1 (getStructures_request 1%positive Stream
                    (sample_state sample_client []) sample_client eq_refl)
             eq_refl).
Defined.

Lemma getStructures_primes_redirect_witness :
  let st := sample_state fresh_client
              [(Some (ok_response structures_body), None);
               (Some (ok_response structures_body), None)] in
  let cl' := redirected fresh_client "https://firebase-apiserver01.nest.com" in
  bind (getStructures 1%positive NoStream)
       (fun _ => getStructures 1%positive NoStream) st
  = Ret (Some (ok_response structures_body), None)
        (mkState (<[1%positive := cl']> (clients st)) (mkScript [] 1000)
           (sent st ++ [first_GET fresh_client; structures_GET cl' NoStream])
           (delivered st)).
Proof.
  intros st cl'.
  exact (getStructures_primes_redirect 1%positive NoStream NoStream st fresh_client
           (mkScript [(Some (ok_response structures_body), None)] 1000)
           (mkScript [] 1000) (ok_response structures_body) None
           (mkURL "https" "firebase-apiserver01.nest.com")
           (Some (ok_response structures_body), None)
           eq_refl eq_refl eq_refl eq_refl eq_refl eq_refl eq_refl).
Defined.

Lemma streamStructures_fresh_failure_panics_witness :
  let st := sample_state fresh_client [(None, Some "dial tcp: no route to host")] in
  streamStructures 1%positive st
  = Panic (mkState (clients st) (mkScript [] 1000)
                   (sent st ++ [first_GET fresh_client]) (delivered st)).
Proof.
  intros st.
  exact (streamStructures_fresh_failure_panics 1%positive st fresh_client
           (mkScript [] 1000) (Some "dial tcp: no route to host")
           eq_refl eq_refl eq_refl eq_refl).
Defined.

Lemma watch_null_entry_panics_witness :
  let st := sample_state sample_client [] in
  watch_lines (JC := null_entry_codec) 1%positive
    ["data:" +:+ event_payload; "data:" +:+ null_entry_payload;
     "data:" +:+ event_payload] st
  = Panic (mkState (clients st) (world st) (sent st)
             [(Some (associate 1%positive <$> sample_structures), None)]).
Proof.
  intros st.
  assert (Hfirst : line_data (JC := null_entry_codec) ("data:" +:+ event_payload)
                   = Some sample_structures) by (vm_compute; reflexivity).
  assert (Hnull : line_data (JC := null_entry_codec) ("data:" +:+ null_entry_payload)
                  = Some {[ "structure1" := None ]}) by (vm_compute; reflexivity).
  assert (Hbefore : Forall (line_sound (JC := null_entry_codec))
                           ["data:" +:+ event_payload]).
  { repeat constructor. unfold line_sound. rewrite Hfirst.
    exact sample_structures_sound. }
  etransitivity;
    [exact (watch_null_entry_panics (JC := null_entry_codec) 1%positive
              ["data:" +:+ event_payload] ["data:" +:+ event_payload]
              ("data:" +:+ null_entry_payload) {[ "structure1" := None ]}
              "structure1" st Hbefore Hnull eq_refl)|].
  unfold body_deliveries. cbn [flat_map]. unfold line_deliveries.
  rewrite Hfirst. reflexivity.
Defined.

Lemma watch_delivers_in_order_witness :
  let lines := [": keep-alive" +:+ newline; "data:" +:+ event_payload;
                "data:" +:+ null_payload; "data:" +:+ event_payload] in
  let st := sample_state sample_client [] in
  watchStructuresStream 1%positive (stream_response lines) st
  = Ret tt (mkState (clients st) (world st) (sent st)
              [(Some (associate 1%positive <$> sample_structures), None);
               (Some (associate 1%positive <$> sample_structures), None)]).
Proof.
  intros lines st.
  assert (Hdata : line_data ("data:" +:+ event_payload) = Some sample_structures)
    by (vm_compute; reflexivity).
  assert (Hsound : Forall line_sound (body_lines (resp_Body (stream_response lines)))).
  { repeat constructor; unfold line_sound; rewrite Hdata;
      exact sample_structures_sound. }
  rewrite (watch_delivers_in_order 1%positive (stream_response lines) st Hsound).
  cbn [stream_response resp_Body body_lines lines omap list_omap].
  unfold line_delivery. rewrite Hdata. reflexivity.
Defined.

Lemma watch_mismatch_line_delivered_witness :
  let st := sample_state sample_client [] in
  unmarshal_err (json_StructuresEvent (JSONCodec := mismatch_codec) mismatch_payload)
  = Some "json: cannot unmarshal number into Go value"
  ∧ watch_lines (JC := mismatch_codec) 1%positive ["data:" +:+ mismatch_payload] st
    = Ret tt (mkState (clients st) (world st) (sent st)
                [(Some {[ "structure1" := Some (mkStructure "" "" (Some 1%positive)) ]},
                  None)]).
Proof.
  intros st. split; [reflexivity|].
  rewrite (watch_mismatch_line_delivered (JC := mismatch_codec)
             (D := sample_declarations) 1%positive
             ("data:" +:+ mismatch_payload) mismatch_payload [] st
             (mkStructuresEvent
                (Some {[ "structure1" := Some (mkStructure "" "" None) ]}))
             "json: cannot unmarshal number into Go value"
             {[ "structure1" := Some (mkStructure "" "" None) ]}
             eq_refl ltac:(discriminate) eq_refl eq_refl).
  - vm_compute. reflexivity.
  - apply map_Forall_singleton. eexists. reflexivity.
Defined.


Lemma calls_keep_accounts_witness :
  let st := sample_state fresh_client
              [(Some (ok_response structures_body), None);
               (Some redirect_response, None); (Some (ok_response ""), None)] in
  let calls := [CallStructures 1%positive;
                CallSetTargetTempF sample_thermostat 78;
                CallStream 2 1%positive] in
  ∃ c', clients (final (perform_all calls st)) !! 1%positive = Some c'
        ∧ APIURL c' = "https://developer-api.nest.com" ∧ Token c' = "c.token".
Proof.
  intros st calls.
  destruct (proj1 (calls_keep_accounts calls st) 1%positive fresh_client eq_refl)
    as (c' & Hc' & Hurl & Htoken & _).
  exists c'. split; [exact Hc'|]. split; [exact Hurl|exact Htoken].
Defined.
